(** * diet-bot: the program-week, schedule and progress engine of backend/index.js

    A shallow embedding of the helper functions and request handlers of
    [backend/index.js] that compute the program week, resolve the schedule of
    a day and record or report task completion, followed by the properties
    established about them.

    Modelling conventions.
    - The lowdb state is the record [Db]; every handler takes the state and
      returns the state it leaves behind.  The source mutates the user object
      it got from [db.get("users").find(..).value()] in place, so a handler
      that throws half-way still leaves its earlier assignments in the
      in-memory state: the [TypeError] outcome carries that state.
    - A JavaScript object used as a dictionary is a [gmap string _] holding
      its own properties.  Property order (which only matters to the order of
      the serialised JSON) and the members inherited from [Object.prototype]
      (keys such as ["constructor"] or ["__proto__"]) are not modelled.  The
      source behaves differently from the model in three places, and the
      theorems that depend on them carry the matching hypothesis: a week key
      that is an inherited name ([inherited]) finds the inherited object, so
      no week object is stored and the writes land on the prototype; the task
      key ["__proto__"] is swallowed by the setter, so no flag is stored; a
      day that is an inherited name finds an inherited function under
      [daily[day]], so no counter is created and nothing is thrown.
    - Time values are integers (milliseconds since the epoch), as the time
      value of a [Date] is.  [Math.floor(a / b)] on such integers is the
      integer quotient: both operands are below 2^53, so the rounded
      double-precision quotient never reaches the next integer.
    - [new Date()] reads the clock; the reading is the explicit argument
      [now].
    - [parseInt(chatId)] has been applied by the caller: chat ids are [Z].
      The [task] and [week] of a request are strings (a numeric week is the
      property key of its decimal form) and [completed] is a boolean.
    - Strings are their UTF-8 bytes; the separators and substrings the
      source looks for are ASCII, so searching bytes finds what searching
      UTF-16 units finds.
    - A bot command returns the state it leaves and its reply; the weekday
      name a cron job reads from the clock, which depends on the time zone of
      the process, is the argument [currentDay]. *)

From Stdlib Require Import ZArith String Ascii List Lia.
From stdpp Require Import gmap strings list fin_maps.

Local Open Scope string_scope.

(** ** JavaScript string and value primitives used by the source *)

Module Js.

(** [s.split(sep)] for a one-character separator. *)
Fixpoint split (sep : ascii) (s : string) : list string :=
  match s with
  | EmptyString => [EmptyString]
  | String a rest =>
      if Ascii.eqb a sep then EmptyString :: split sep rest
      else match split sep rest with
           | [] => [String a EmptyString]
           | part :: parts => String a part :: parts
           end
  end.

(** [s.startsWith(p)]. *)
Definition startsWith (s p : string) : bool := String.prefix p s.

(** [s.includes(sub)]. *)
Fixpoint includes (s sub : string) : bool :=
  String.prefix sub s ||
  match s with
  | EmptyString => false
  | String _ rest => includes rest sub
  end.

End Js.

(** ** Data model *)

(** An entry of [progress[week].daily]: [{ completed, total }]. *)
Record DayCounter := { completed : nat; total : nat }.

(** The values found under the keys of a [progress[week]] object: the
    completion flags of the tasks, the two week counters and the [daily]
    object. *)
Inductive value :=
| VBool (b : bool)
| VNum (n : nat)
| VDaily (daily : gmap string DayCounter).

(** A row of the [users] collection.  [startDate] is the time value of the
    stored ISO string; [None] stands for a missing (falsy) field. *)
Record User := {
  chatId : Z;
  startDate : option Z;
  progress : option (gmap string (gmap string value))
}.

(** An entry of a schedule: [{ title, description }], with [mealContent]
    once a meal has been attached. *)
Record ScheduleEntry := {
  title : string;
  description : string;
  mealContent : option string
}.

Record Schedule := { s_chatId : Z; tasks : gmap string ScheduleEntry }.

Record Workout := {
  w_chatId : Z;
  w_week : Z;
  w_day : string;
  w_title : string;
  w_description : string;
  w_details : string
}.

Record Meal := { m_chatId : Z; m_day : string; mainMeal : string; snack : string }.

Record Db := {
  users : list User;
  schedules : list Schedule;
  workouts : list Workout;
  meals : list Meal
}.

(** The result of a handler that may throw. *)
Inductive outcome :=
| Done (d : Db)
| TypeError (d : Db).

(** JavaScript truthiness of a property read ([None] is [undefined]). *)
Definition truthy (v : option value) : bool :=
  match v with
  | Some (VBool b) => b
  | Some (VNum n) => negb (n =? 0)%nat
  | Some (VDaily _) => true
  | None => false
  end.

(** [v === true]. *)
Definition strictTrue (v : value) : bool :=
  match v with
  | VBool true => true
  | _ => false
  end.

(** [Object.keys(o).filter(p).length]. *)
Definition countKeys (p : string → bool) (o : gmap string value) : nat :=
  size (filter (λ kv, p kv.1 = true) o).

(** [Object.entries(o).filter(([key, value]) => p key && value === true).length]. *)
Definition countTrue (p : string → bool) (o : gmap string value) : nat :=
  size (filter (λ kv, p kv.1 && strictTrue kv.2 = true) o).

(** ** Helper functions of the source *)

(** [db.get("users").find({ chatId }).value()]. *)
Definition findUser (d : Db) (c : Z) : option User :=
  find (λ u, (chatId u =? c)%Z) (users d).

(** [getSchedule(chatId)]. *)
Definition getSchedule (d : Db) (c : Z) : option (gmap string ScheduleEntry) :=
  match find (λ s, (s_chatId s =? c)%Z) (schedules d) with
  | Some schedule => Some (tasks schedule)
  | None => None
  end.

(** [getWorkout(chatId, week, day)]. *)
Definition getWorkout (d : Db) (c week : Z) (day : string) : option Workout :=
  find (λ w, (w_chatId w =? c)%Z && (w_week w =? week)%Z && String.eqb (w_day w) day)
       (workouts d).

(** [getMeal(chatId, day)]. *)
Definition getMeal (d : Db) (c : Z) (day : string) : option Meal :=
  find (λ m, (m_chatId m =? c)%Z && String.eqb (m_day m) day) (meals d).

(** [1000 * 60 * 60 * 24]. *)
Definition msPerDay : Z := 1000 * 60 * 60 * 24.

(** The arithmetic of [calculateCurrentWeek] once both dates are known. *)
Definition weekSince (startDate currentDate : Z) : Z :=
  let diffTime := Z.abs (currentDate - startDate) in
  let diffDays := (diffTime / msPerDay)%Z in
  let currentWeek := (diffDays / 7 + 1)%Z in
  Z.min currentWeek 8.

(** [calculateCurrentWeek(chatId)], with the clock reading [now]. *)
Definition calculateCurrentWeek (d : Db) (now : Z) (c : Z) : Z :=
  match findUser d c with
  | None => 1%Z
  | Some user =>
      match startDate user with
      | None => 1%Z
      | Some start => weekSince start now
      end
  end.

(** ** Schedule of a day *)

(** The body of the loop of [getScheduleForDay] for one [time, task] pair. *)
Definition resolveSlot (d : Db) (now : Z) (c : Z) (day : string)
    (time : string) (task : ScheduleEntry) : ScheduleEntry :=
  if String.eqb time "17:00" then
    let currentWeek := calculateCurrentWeek d now c in
    match getWorkout d c currentWeek day with
    | Some workout =>
        {| title := w_title workout;
           description := w_description workout;
           mealContent := mealContent task |}
    | None => task
    end
  else if String.eqb time "16:00" || String.eqb time "22:00" then
    match getMeal d c day with
    | Some meal =>
        let mealType := if String.eqb time "16:00" then snack else mainMeal in
        {| title := title task;
           description := description task;
           mealContent := Some (mealType meal) |}
    | None => task
    end
  else task.

(** [getScheduleForDay(chatId, day)]; [None] is the [null] returned when the
    user has no schedule. *)
Definition getScheduleForDay (d : Db) (now : Z) (c : Z) (day : string)
    : option (gmap string ScheduleEntry) :=
  match getSchedule d c with
  | None => None
  | Some schedule =>
      Some (map_imap (λ time task, Some (resolveSlot d now c day time task)) schedule)
  end.

(** ** Progress *)

(** [db.get("users").find({ chatId }).assign({ progress })]: the first row
    with that chat id gets the progress object. *)
Fixpoint assignProgress (c : Z) (p : gmap string (gmap string value))
    (us : list User) : list User :=
  match us with
  | [] => []
  | u :: rest =>
      if (chatId u =? c)%Z
      then {| chatId := chatId u; startDate := startDate u; progress := Some p |} :: rest
      else u :: assignProgress c p rest
  end.

Definition writeProgress (d : Db) (c : Z) (p : gmap string (gmap string value)) : Db :=
  {| users := assignProgress c p (users d);
     schedules := schedules d;
     workouts := workouts d;
     meals := meals d |}.

(** The keys counted by the week totals: [!key.includes('daily')]. *)
Definition notDaily (key : string) : bool := negb (Js.includes key "daily").

(** The keys counted for a day: [key.startsWith(day + '_')]. *)
Definition ofDay (day : string) (key : string) : bool :=
  Js.startsWith key (String.append day "_").

(** The assignments of [updateProgress] that store the flag and make sure
    [daily] is there: [progress[week][task] = completed] and
    [if (!progress[week].daily) progress[week].daily = {}].  (For the task
    key "__proto__" the source's assignment stores nothing; statements about
    the stored flag exclude that key.) *)
Definition storeTask (task : string) (flag : bool) (week0 : gmap string value)
    : gmap string value :=
  let week1 := <[task := VBool flag]> week0 in
  if truthy (week1 !! "daily") then week1 else <["daily" := VDaily ∅]> week1.

(** The day-level part of [updateProgress]: runs on the week object once the
    task has been stored and [daily] made truthy.  [inr] is the object at the
    point where [daily[day].total = ...] throws because [daily] is a primitive
    (reading a property of it yields [undefined]).  (For a day that is an
    inherited property name the source reads an inherited function there,
    creates no counter and does not throw; statements about the day counters
    exclude those days.) *)
Definition updateDaily (task : string) (wk : gmap string value)
    : gmap string value + gmap string value :=
  let taskParts := Js.split "_" task in
  if (1 <? length taskParts)%nat then
    let day := hd "" taskParts in
    match wk !! "daily" with
    | Some (VDaily daily) =>
        let daily1 :=
          match daily !! day with
          | Some _ => daily
          | None => <[day := {| completed := 0; total := countKeys (ofDay day) wk |}]> daily
          end in
        let wk1 := <["daily" := VDaily daily1]> wk in
        let completedDayTasks := countTrue (ofDay day) wk1 in
        let daily2 :=
          alter (λ counter, {| completed := completedDayTasks; total := total counter |})
                day daily1 in
        inl (<["daily" := VDaily daily2]> wk1)
    | _ => inr wk
    end
  else inl wk.

(** The week-level part of [updateProgress]. *)
Definition updateTotals (wk : gmap string value) : gmap string value :=
  let totalTasks := countKeys notDaily wk in
  let completedTasks := countTrue notDaily wk in
  <["completed" := VNum completedTasks]> (<["total" := VNum totalTasks]> wk).

(** [updateProgress(chatId, task, week, completed)]; [flag] is [completed].
    (For a week key that is an inherited property name the source finds the
    inherited object under [progress[week]] and stores no week object;
    statements about the stored week are for the other week keys.) *)
Definition updateProgress (d : Db) (c : Z) (task week : string) (flag : bool) : outcome :=
  match findUser d c with
  | None => Done d
  | Some user =>
      let progress0 := default ∅ (progress user) in
      let week0 := default ∅ (progress0 !! week) in
      match updateDaily task (storeTask task flag week0) with
      | inr thrown => TypeError (writeProgress d c (<[week := thrown]> progress0))
      | inl week3 => Done (writeProgress d c (<[week := updateTotals week3]> progress0))
      end
  end.

Definition daysOfWeek : list string :=
  ["monday"; "tuesday"; "wednesday"; "thursday"; "friday"; "saturday"; "sunday"].

(** One round of the [daysOfWeek.forEach] of the progress endpoint. *)
Definition backfillDay (wk : gmap string value) (daily : gmap string DayCounter)
    (day : string) : gmap string DayCounter :=
  let dayTasks := filter (λ kv, ofDay day kv.1 = true) wk in
  if (0 <? size dayTasks)%nat then
    let completedDayTasks := size (filter (λ kv, strictTrue kv.2 = true) dayTasks) in
    <[day := {| completed := completedDayTasks; total := size dayTasks |}]> daily
  else daily.

(** [{ daily: {}, total: 0, completed: 0 }]. *)
Definition emptyProgress : gmap string value :=
  <["daily" := VDaily ∅]> (<["total" := VNum 0]> (<["completed" := VNum 0]> ∅)).

(** The handler of [GET /get-progress]: the object sent back and the state
    left behind.  (A week key that is an inherited property name takes the
    stored-week branch of the source on the inherited object; statements
    about what is sent for a week are for the other week keys.) *)
Definition getProgress (d : Db) (c : Z) (week : string) : gmap string value * Db :=
  match findUser d c with
  | Some user =>
      match progress user with
      | Some progress0 =>
          match progress0 !! week with
          | Some wk =>
              if truthy (wk !! "daily") then (wk, d)
              else
                let wk1 := <["daily" := VDaily ∅]> wk in
                let daily := foldl (backfillDay wk1) ∅ daysOfWeek in
                let wk2 := <["daily" := VDaily daily]> wk1 in
                (wk2, writeProgress d c (<[week := wk2]> progress0))
          | None => (emptyProgress, d)
          end
      | None => (emptyProgress, d)
      end
  | None => (emptyProgress, d)
  end.

(** The week object of a user as stored, if any. *)
Definition weekOf (d : Db) (c : Z) (week : string) : option (gmap string value) :=
  match findUser d c with
  | Some user => default ∅ (progress user) !! week
  | None => None
  end.

(** The state a handler leaves behind, whichever way it ended. *)
Definition stateOf (o : outcome) : Db :=
  match o with
  | Done d => d
  | TypeError d => d
  end.

(** ** Statements and scenarios used below *)

(** The entries of a week object that are tasks: everything but the three
    aggregates the source keeps next to them. *)
Definition taskEntries (wk : gmap string value) : gmap string value :=
  delete "daily" (delete "total" (delete "completed" wk)).

(** A freshly enrolled user [1] (progress [{}]) and nothing else. *)
Definition enrolled : Db :=
  {| users := [ {| chatId := 1; startDate := Some 0%Z; progress := Some ∅ |} ];
     schedules := []; workouts := []; meals := [] |}.

(** [enrolled] after [updateProgress(1, "monday_1700", "1", true)]. *)
Definition afterFirst : Db :=
  stateOf (updateProgress enrolled 1 "monday_1700" "1" true).

(** [afterFirst] after [updateProgress(1, "monday_1600", "1", false)]. *)
Definition afterSecond : Db :=
  stateOf (updateProgress afterFirst 1 "monday_1600" "1" false).

(** [enrolled] after two tasks of one day have been recorded as done, one
    call each. *)
Definition afterTwoDone : Db :=
  stateOf (updateProgress
             (stateOf (updateProgress enrolled 1 "monday_a" "1" true))
             1 "monday_b" "1" true).

(** Recording [task] without touching the day counters: the update completes,
    the flag is found under [task], the week counters are those of the
    object with the task stored, and [daily] is what it was (a new empty
    object if there was none). *)
Definition recordsWithoutDay (d : Db) (c : Z) (task week : string) (flag : bool) : Prop :=
  let week0 := default ∅ (weekOf d c week) in
  ∃ d' wk',
    updateProgress d c task week flag = Done d' ∧
    weekOf d' c week = Some wk' ∧
    wk' !! task = Some (VBool flag) ∧
    wk' !! "total" = Some (VNum (countKeys notDaily (<[task := VBool flag]> week0))) ∧
    wk' !! "completed" = Some (VNum (countTrue notDaily (<[task := VBool flag]> week0))) ∧
    wk' !! "daily" = (if truthy (week0 !! "daily") then week0 !! "daily"
                      else Some (VDaily ∅)).


(** A state with a schedule, a workout and a meal for user [1], used to run
    the resolver. *)
Definition withSchedule : Db :=
  {| users := [ {| chatId := 1; startDate := Some 0%Z; progress := Some ∅ |} ];
     schedules :=
       [ {| s_chatId := 1;
            tasks := <["17:00" := {| title := "Workout (See schedule)";
                                     description := "generic";
                                     mealContent := None |}]>
                     (<["16:00" := {| title := "Snack";
                                      description := "Today's scheduled snack";
                                      mealContent := None |}]>
                     (<["12:00" := {| title := "500ml water";
                                      description := "Stay hydrated";
                                      mealContent := None |}]> ∅)) |} ];
     workouts :=
       [ {| w_chatId := 1; w_week := 1; w_day := "Tuesday";
            w_title := "30 min VR fitness (moderate)";
            w_description := "Workout for Tuesday"; w_details := "" |} ];
     meals :=
       [ {| m_chatId := 1; m_day := "Tuesday";
            mainMeal := "Lean beef stir-fry"; snack := "Greek yogurt with berries." |} ] |}.

(** A state whose week object has tasks but no [daily] yet, as an earlier
    version of [updateProgress] would have left it. *)
Definition legacy : Db :=
  {| users :=
       [ {| chatId := 1; startDate := Some 0%Z;
            progress := Some (<["1" := <["monday_1700" := VBool true]>
                                        (<["monday_1600" := VBool false]>
                                        (<["total" := VNum 2]>
                                        (<["completed" := VNum 1]> ∅)))]> ∅) |} ];
     schedules := []; workouts := []; meals := [] |}.

(** ** Enrollment: the catalogue and the [/generate] and [/regenerate] commands *)

(** [scheduleData]: the schedule every user gets. *)
Definition scheduleData : gmap string ScheduleEntry :=
  list_to_map [
    ("10:00", {| title := "☕ Black coffee or tea (optional)";
                 description := "No milk/sugar, helps suppress hunger";
                 mealContent := None |});
    ("12:00", {| title := "🚰 500ml water";
                 description := "Stay hydrated";
                 mealContent := None |});
    ("14:00", {| title := "🚰 More water or herbal tea";
                 description := "Helps with satiety";
                 mealContent := None |});
    ("16:00", {| title := "Snack";
                 description := "Today's scheduled snack";
                 mealContent := None |});
    ("17:00", {| title := "Workout (See schedule)";
                 description := "This could be running, VR fitness, or a bodyweight circuit.";
                 mealContent := None |});
    ("18:00", {| title := "Post-workout water/shower";
                 description := "Replenish fluids.";
                 mealContent := None |});
    ("19:00", {| title := "Free time/Relax";
                 description := "Do whatever you want to spend your time";
                 mealContent := None |});
    ("21:00", {| title := "Prepare Dinner";
                 description := "Cooking time.";
                 mealContent := None |});
    ("22:00", {| title := "🍽️ Main Meal (OMAD) with Family";
                 description := "Large, balanced meal";
                 mealContent := None |});
    ("00:30", {| title := "🚶 Light walk or stretch";
                 description := "Helps digestion";
                 mealContent := None |});
    ("01:30", {| title := "🛏️ Sleep";
                 description := "Supports muscle recovery & fat loss";
                 mealContent := None |}) ].

(** The [meals] table of [generateMealData]: day, main meal, snack. *)
Definition mealsByDay : list (string * (string * string)) :=
  [
    ("Monday",
     ("Grilled chicken breast (150g) with 100g cooked rice, a large salad (cucumber, tomato, onion, bell pepper) with 1 tbsp olive oil and vinegar dressing.",
      "Handful of almonds and a small apple."));
    ("Tuesday",
     ("Lean beef stir-fry (150g beef) with lots of vegetables (onions, peppers, mushrooms, zucchini) and 100g cooked rice. Use a low-sodium soy sauce and a little olive oil.",
      "Greek yogurt with berries."));
    ("Wednesday",
     ("Baked chicken breast (150g) with roasted vegetables (carrots, green beans, asparagus) and a side of 100g cooked rice.",
      "Protein shake with water."));
    ("Thursday",
     ("Healthy pasta with mixed vegetables and lean protein. 100g whole wheat pasta with grilled chicken and vegetables.",
      "Handful of walnuts and a banana."));
    ("Friday",
     ("Grilled chicken salad (150g chicken) with a huge bed of mixed greens, cucumber, tomato, and a light vinaigrette dressing. 100g cooked rice on the side.",
      "Greek yogurt with a few berries."));
    ("Saturday",
     ("Lean beef and vegetable kebabs (150g beef) with bell peppers, onions, and zucchini. Serve with 100g cooked rice.",
      "Protein shake with water."));
    ("Sunday",
     ("Chicken breast (150g) baked with herbs and spices, served with a large portion of steamed vegetables (spinach, carrots, green beans) and 100g cooked rice.",
      "A small handful of mixed nuts and an orange.")) ].

(** [workoutPlans]: for each week the workout name of each day. *)
Definition workoutPlans : list (Z * list (string * string)) :=
  [
    (1%Z,
     [ ("Monday", "Rest");
       ("Tuesday", "30 min VR fitness (moderate)");
       ("Wednesday", "Bodyweight Circuit 1");
       ("Thursday", "30 min Run (easy pace)");
       ("Friday", "Bodyweight Circuit 1");
       ("Saturday", "45 min VR fitness (moderate)");
       ("Sunday", "Rest") ]);
    (2%Z,
     [ ("Monday", "35 min Run (easy pace)");
       ("Tuesday", "Bodyweight Circuit 2");
       ("Wednesday", "40 min VR fitness (moderate)");
       ("Thursday", "Rest");
       ("Friday", "Bodyweight Circuit 2");
       ("Saturday", "50 min Run (easy pace)");
       ("Sunday", "Rest") ]);
    (3%Z,
     [ ("Monday", "Bodyweight Circuit 1");
       ("Tuesday", "45 min VR fitness (moderate/high)");
       ("Wednesday", "45 min Run (intervals: 2 min fast, 2 min slow)");
       ("Thursday", "Bodyweight Circuit 1");
       ("Friday", "Rest");
       ("Saturday", "60 min VR fitness (moderate/high)");
       ("Sunday", "Rest") ]);
    (4%Z,
     [ ("Monday", "50 min Run (intervals: 3 min fast, 2 min slow)");
       ("Tuesday", "Bodyweight Circuit 2");
       ("Wednesday", "Rest");
       ("Thursday", "50 min Run (steady pace)");
       ("Friday", "Bodyweight Circuit 2");
       ("Saturday", "Long walk (60+ min)");
       ("Sunday", "Rest") ]);
    (5%Z,
     [ ("Monday", "Rest");
       ("Tuesday", "VR fitness (moderate)");
       ("Wednesday", "Bodyweight Circuit 1");
       ("Thursday", "Run (easy pace)");
       ("Friday", "Bodyweight Circuit 1");
       ("Saturday", "VR fitness (moderate)");
       ("Sunday", "Rest") ]);
    (6%Z,
     [ ("Monday", "Run (easy pace)");
       ("Tuesday", "Bodyweight Circuit 2");
       ("Wednesday", "VR fitness (moderate)");
       ("Thursday", "Rest");
       ("Friday", "Bodyweight Circuit 2");
       ("Saturday", "Run (easy pace)");
       ("Sunday", "Rest") ]);
    (7%Z,
     [ ("Monday", "Bodyweight Circuit 1");
       ("Tuesday", "VR fitness (moderate/high)");
       ("Wednesday", "Run (intervals: 2 min fast, 2 min slow)");
       ("Thursday", "Bodyweight Circuit 1");
       ("Friday", "Rest");
       ("Saturday", "VR fitness (moderate/high)");
       ("Sunday", "Rest") ]);
    (8%Z,
     [ ("Monday", "Run (intervals: 3 min fast, 2 min slow)");
       ("Tuesday", "Bodyweight Circuit 2");
       ("Wednesday", "Rest");
       ("Thursday", "Run (steady pace)");
       ("Friday", "Bodyweight Circuit 2");
       ("Saturday", "Long walk (60+ min)");
       ("Sunday", "Rest") ]) ].

(** [bodyweightCircuits[workoutName]]; [None] is [undefined].  The texts
    are the template literals after [.trim()]. *)
Definition bodyweightCircuits (workoutName : string) : option string :=
  if String.eqb workoutName "Bodyweight Circuit 1" then Some
"Squats (10-15 reps)
            Push-ups (as many as possible with good form)
            Walking Lunges (10 reps per leg)
            Plank (30-60 seconds)
            Crunches (15-20 reps)
            Repeat circuit 2-3 times with 1-minute rest between circuits."
  else if String.eqb workoutName "Bodyweight Circuit 2" then Some
"Jump Squats (10-12 reps)
            Incline Push-ups (using a chair or wall) (as many as possible)
            Reverse Lunges (10 reps per leg)
            Side Plank (30 seconds per side)
            Bicycle Crunches (15-20 reps)
            Repeat circuit 2-3 times with 1-minute rest between circuits."
  else if String.eqb workoutName "Bodyweight Circuit Alternative" then Some
"Burpees (as good form as possible)
            Decline Push-ups (using a chair or wall)
            Glute Bridge (15-20 reps)
            Russian Twists ( 15-20 reps)
            Superman (hold for 30 seconds)"
  else None.

(** The template literal assigned to [details] for a run (not trimmed). *)
Definition runDetails : string :=
"
            Start with a pace you can maintain comfortably.
            Gradually increase the duration of your runs.
            Incorporate intervals (alternating between fast and slow running) to boost calorie burn and improve fitness.
            ".

(** The [details] computed by [generateWorkoutData] for a workout name.  A
    name that contains "Bodyweight Circuit" without being a key of
    [bodyweightCircuits] would leave [details] undefined; the empty string,
    just as falsy, stands for it (no name of [workoutPlans] is such a name). *)
Definition workoutDetails (workoutName : string) : string :=
  let details := "" in
  let details :=
    if Js.includes workoutName "Bodyweight Circuit"
    then default "" (bodyweightCircuits workoutName)
    else details in
  if Js.includes workoutName "Run" then runDetails else details.

(** The rows [generateWorkoutData(chatId)] builds, in the order it pushes
    them. *)
Definition workoutData (c : Z) : list Workout :=
  flat_map
    (λ plan,
       map (λ entry,
              {| w_chatId := c;
                 w_week := plan.1;
                 w_day := entry.1;
                 w_title := entry.2;
                 w_description := String.append "Workout for " entry.1;
                 w_details := workoutDetails entry.2 |})
           plan.2)
    workoutPlans.

(** [generateWorkoutData(chatId)]. *)
Definition generateWorkoutData (d : Db) (c : Z) : Db :=
  {| users := users d;
     schedules := schedules d;
     workouts := workouts d ++ workoutData c;
     meals := meals d |}.

(** The rows [generateMealData(chatId)] builds. *)
Definition mealData (c : Z) : list Meal :=
  map (λ entry,
         {| m_chatId := c;
            m_day := entry.1;
            mainMeal := entry.2.1;
            snack := entry.2.2 |})
      mealsByDay.

(** [generateMealData(chatId)]. *)
Definition generateMealData (d : Db) (c : Z) : Db :=
  {| users := users d;
     schedules := schedules d;
     workouts := workouts d;
     meals := meals d ++ mealData c |}.

(** [generateSchedule(chatId)]: nothing is added when the user already has a
    schedule row. *)
Definition generateSchedule (d : Db) (c : Z) : Db :=
  match find (λ s, (s_chatId s =? c)%Z) (schedules d) with
  | Some existingSchedule => d
  | None =>
      generateWorkoutData
        {| users := users d;
           schedules := schedules d ++ [ {| s_chatId := c; tasks := scheduleData |} ];
           workouts := workouts d;
           meals := meals d |}
        c
  end.

(** The user row pushed by both commands; [now] is the clock reading stored
    as [startDate]. *)
Definition newUser (now c : Z) : User :=
  {| chatId := c; startDate := Some now; progress := Some ∅ |}.

(** [bot.command("generate", ...)]: the state left behind and the reply. *)
Definition generate (d : Db) (now c : Z) : Db * string :=
  match findUser d c with
  | Some user =>
      (d, "You already have a fitness plan. Use /regenerate if you want to start over.")
  | None =>
      let d1 :=
        {| users := users d ++ [newUser now c];
           schedules := schedules d;
           workouts := workouts d;
           meals := meals d |} in
      (generateMealData (generateSchedule d1 c) c,
       "Your 8-week fitness plan has been generated! Check the mini-app to view your schedule.")
  end.

(** The four [remove({ chatId })] of [/regenerate]. *)
Definition removeUserData (d : Db) (c : Z) : Db :=
  {| users := filter (λ u, chatId u ≠ c) (users d);
     schedules := filter (λ s, s_chatId s ≠ c) (schedules d);
     workouts := filter (λ w, w_chatId w ≠ c) (workouts d);
     meals := filter (λ m, m_chatId m ≠ c) (meals d) |}.

(** [bot.command("regenerate", ...)]: the state left behind and the reply. *)
Definition regenerate (d : Db) (now c : Z) : Db * string :=
  let d0 := removeUserData d c in
  let d1 :=
    {| users := users d0 ++ [newUser now c];
       schedules := schedules d0;
       workouts := workouts d0;
       meals := meals d0 |} in
  (generateMealData (generateSchedule d1 c) c,
   "Your fitness plan has been reset and regenerated! Check the mini-app to view your updated schedule.").

(** The seven day names of the catalogue. *)
Definition catalogDays : list string :=
  ["Monday"; "Tuesday"; "Wednesday"; "Thursday"; "Friday"; "Saturday"; "Sunday"].

(** ** Notifications *)

(** The line feed written [\n] in the message templates. *)
Definition newline : string := String "010"%char EmptyString.

(** The callback [scheduleNotifications] registers for one [time, task] pair
    of the schedule of [chatId]: the text handed to [sendMessage] and whether
    it is sent with [parse_mode: "Markdown"].  [currentDay] is the weekday
    name the clock reading [now] has in the locale of the process. *)
Definition notificationMessage (d : Db) (now c : Z) (currentDay time : string)
    (task : ScheduleEntry) : string * bool :=
  let currentWeek := calculateCurrentWeek d now c in
  if String.eqb time "17:00" then
    match getWorkout d c currentWeek currentDay with
    | Some workout =>
        let workoutMessage :=
          String.concat ""
            ["Time to workout!"; newline; newline; "*"; w_title workout; "*"; newline;
             w_description workout] in
        let workoutMessage :=
          if String.eqb (w_details workout) "" then workoutMessage
          else String.concat ""
                 [workoutMessage; newline; newline; "*Details:*"; newline;
                  w_details workout] in
        (workoutMessage, true)
    | None => ("It's workout time! Check the mini-app for details.", false)
    end
  else if String.eqb time "16:00" || String.eqb time "22:00" then
    let mealType := if String.eqb time "16:00" then snack else mainMeal in
    let mealName := if String.eqb time "16:00" then "snack" else "main meal" in
    match getMeal d c currentDay with
    | Some meal =>
        (String.concat ""
           ["Time for your "; mealName; "!"; newline; newline; "*"; mealType meal; "*"],
         true)
    | None =>
        (String.concat ""
           ["It's time for your "; mealName; "! Check the mini-app for details."],
         false)
    end
  else
    (String.concat "" ["*"; title task; "*"; newline; description task], true).

(** The cron expression built from a schedule key:
    [const [hour, minute] = time.split(":")] and
    [`${minute} ${hour} * * *`]; a missing part prints as "undefined". *)
Definition cronExpression (time : string) : string :=
  let parts := Js.split ":" time in
  let hour := nth 0 parts "undefined" in
  let minute := nth 1 parts "undefined" in
  String.concat "" [minute; " "; hour; " * * *"].



(** ** Keys outside the model *)

(** The property names every object (and every boolean) inherits; reading
    them on an object that has no such key of its own does not yield
    [undefined]. *)
Definition inheritedMembers : list string :=
  ["constructor"; "hasOwnProperty"; "isPrototypeOf"; "propertyIsEnumerable";
   "toLocaleString"; "toString"; "valueOf"; "__proto__";
   "__defineGetter__"; "__defineSetter__"; "__lookupGetter__"; "__lookupSetter__"].

Definition inherited (key : string) : bool :=
  existsb (String.eqb key) inheritedMembers.

(** [row] is the first element of [rows] that satisfies [P]: the element
    lodash's [find({ ... })] returns for the fields [P] compares. *)
Definition firstMatch {A : Type} (P : A → Prop) (rows : list A) (row : A) : Prop :=
  ∃ before after,
    rows = (before ++ row :: after)%list ∧ P row ∧ ∀ other, In other before → ¬ P other.


(** The day counters a week object holds: those of its [daily] object, none
    when [daily] is missing or is not an object. *)
Definition dailyOf (wk : gmap string value) : gmap string DayCounter :=
  match wk !! "daily" with
  | Some (VDaily daily) => daily
  | _ => ∅
  end.

(** Every user row comes with a schedule row. *)
Definition everyUserHasSchedule (d : Db) : Prop :=
  ∀ c, is_Some (findUser d c) → is_Some (getSchedule d c).

(** The state [db.defaults] starts from. *)
Definition emptyDb : Db :=
  {| users := []; schedules := []; workouts := []; meals := [] |}.

(** A state with two users: [1] with some progress, [2] freshly enrolled. *)
Definition twoUsers : Db :=
  {| users := users afterSecond ++ [ {| chatId := 2; startDate := Some 5%Z; progress := Some ∅ |} ];
     schedules := []; workouts := []; meals := [] |}.

(** [enrolled] after [updateProgress(1, "daily", "1", true)]: the flag sits
    where the [daily] object is expected. *)
Definition poisoned : Db :=
  stateOf (updateProgress enrolled 1 "daily" "1" true).

(** ** Sanity checks of the primitives *)

Example split_day_time : Js.split "_" "monday_1700" = ["monday"; "1700"].
Proof. reflexivity. Qed.

Example split_plain : Js.split "_" "water" = ["water"].
Proof. reflexivity. Qed.

Example split_empty_parts : Js.split "_" "_" = [""; ""].
Proof. reflexivity. Qed.

Example includes_daily : Js.includes "mydailytask" "daily" = true.
Proof. reflexivity. Qed.

Example includes_total : Js.includes "total" "daily" = false.
Proof. reflexivity. Qed.

Example week_ten_days : weekSince 0 (10 * msPerDay) = 2%Z.
Proof. reflexivity. Qed.

(** ** WeekCalculator: [calculateCurrentWeek] *)

Section WeekCalculator.

Local Open Scope Z_scope.

Lemma weekSince_eq start now :
  weekSince start now = Z.min (Z.abs (now - start) / 86400000 / 7 + 1) 8.
Proof. reflexivity. Qed.

Lemma weekSince_range start now : 1 ≤ weekSince start now ≤ 8.
Proof.
  rewrite weekSince_eq.
  assert (0 ≤ Z.abs (now - start) / 86400000 / 7).
  { apply Z.div_pos; [apply Z.div_pos|]; lia. }
  lia.
Qed.

Lemma weekSince_mono start now later :
  start ≤ now → now ≤ later → weekSince start now ≤ weekSince start later.
Proof.
  intros Hs Hl. rewrite !weekSince_eq.
  apply Z.min_le_compat_r, Z.add_le_mono_r.
  apply Z.div_le_mono; [lia|].
  apply Z.div_le_mono; lia.
Qed.

Lemma weekSince_after start days :
  0 ≤ days → weekSince start (start + days * 86400000) = Z.min (days / 7 + 1) 8.
Proof.
  intros Hd. rewrite weekSince_eq.
  replace (start + days * 86400000 - start) with (days * 86400000) by lia.
  rewrite Z.abs_eq by lia.
  rewrite Z.div_mul by lia. reflexivity.
Qed.

Lemma calculateCurrentWeek_started d now c user start :
  findUser d c = Some user → startDate user = Some start →
  calculateCurrentWeek d now c = weekSince start now.
Proof. intros Hu Hs. unfold calculateCurrentWeek. by rewrite Hu, Hs. Qed.

(** C4: for a user with a start date, [calculateCurrentWeek] is
    [min(floor(floor(|now - start| / 86400000 ms) / 7) + 1, 8)]; from the
    start date on it stays within 1..8 and never decreases as the clock
    advances; it is 1 at the start date, 2 ten days later and 8 (not 9) sixty
    days later.  Without a user or without a start date it is 1. *)
Theorem calculateCurrentWeek_spec :
  (∀ d now c user start,
     findUser d c = Some user → startDate user = Some start →
     calculateCurrentWeek d now c = Z.min (Z.abs (now - start) / 86400000 / 7 + 1) 8
     ∧ (start ≤ now → 1 ≤ calculateCurrentWeek d now c ≤ 8)
     ∧ (∀ later, start ≤ now → now ≤ later →
          calculateCurrentWeek d now c ≤ calculateCurrentWeek d later c)
     ∧ calculateCurrentWeek d start c = 1
     ∧ calculateCurrentWeek d (start + 10 * 86400000) c = 2
     ∧ calculateCurrentWeek d (start + 60 * 86400000) c = 8)
  ∧ (∀ d now c,
       findUser d c = None ∨ (∃ user, findUser d c = Some user ∧ startDate user = None) →
       calculateCurrentWeek d now c = 1).
Proof.
  split.
  - intros d now c user start Hu Hs.
    rewrite !(calculateCurrentWeek_started d _ c user start Hu Hs).
    split; [apply weekSince_eq|].
    split; [intros _; apply weekSince_range|].
    split.
    { intros later H1 H2.
      rewrite (calculateCurrentWeek_started d _ c user start Hu Hs).
      by apply weekSince_mono. }
    split.
    { replace start with (start + 0 * 86400000) at 2 by lia.
      by rewrite weekSince_after. }
    split; by rewrite weekSince_after.
  - intros d now c [Hn | (user & Hu & Hs)]; unfold calculateCurrentWeek.
    + by rewrite Hn.
    + by rewrite Hu, Hs.
Qed.

Lemma calculateCurrentWeek_spec_witness :
  (calculateCurrentWeek enrolled 864000000 1
     = Z.min (Z.abs (864000000 - 0) / 86400000 / 7 + 1) 8
   ∧ 1 ≤ calculateCurrentWeek enrolled 864000000 1 ≤ 8
   ∧ calculateCurrentWeek enrolled 864000000 1 ≤ calculateCurrentWeek enrolled 5184000000 1)
  ∧ calculateCurrentWeek enrolled 864000000 2 = 1.
Proof.
  split.
  - destruct (proj1 calculateCurrentWeek_spec enrolled 864000000 1 _ 0 eq_refl eq_refl)
      as (Hformula & Hrange & Hmono & _).
    split; [exact Hformula|].
    split; [apply Hrange; lia|].
    apply Hmono; lia.
  - apply (proj2 calculateCurrentWeek_spec enrolled 864000000 2).
    left. reflexivity.
Defined.

(** C9: when the clock is before the start date the elapsed time is taken in
    absolute value, so the week is
    [min(floor(floor((start - now) / 86400000 ms) / 7) + 1, 8)]; a start date
    more than seven days ahead already gives week 2 or more. *)
Theorem calculateCurrentWeek_before_start d now c user start :
  findUser d c = Some user → startDate user = Some start → now < start →
  calculateCurrentWeek d now c = Z.min ((start - now) / 86400000 / 7 + 1) 8
  ∧ (7 * 86400000 < start - now → 2 ≤ calculateCurrentWeek d now c).
Proof.
  intros Hu Hs Hlt.
  rewrite (calculateCurrentWeek_started d now c user start Hu Hs), weekSince_eq.
  replace (Z.abs (now - start)) with (start - now) by lia.
  split; [reflexivity|].
  intros Hfar.
  assert (7 ≤ (start - now) / 86400000) by (apply Z.div_le_lower_bound; lia).
  assert (1 ≤ (start - now) / 86400000 / 7) by (apply Z.div_le_lower_bound; lia).
  lia.
Qed.

Lemma calculateCurrentWeek_before_start_witness :
  calculateCurrentWeek enrolled (-691200000) 1 = Z.min ((0 - -691200000) / 86400000 / 7 + 1) 8
  ∧ 2 ≤ calculateCurrentWeek enrolled (-691200000) 1.
Proof.
  destruct (calculateCurrentWeek_before_start enrolled (-691200000) 1 _ 0 eq_refl eq_refl)
    as [Hformula Hfar]; [lia|].
  split; [exact Hformula | apply Hfar; lia].
Defined.

End WeekCalculator.

(** ** ScheduleResolver: [getScheduleForDay] *)

Section ScheduleResolver.

Variables (d : Db) (now c : Z) (day : string).

Lemma resolveSlot_workout task :
  resolveSlot d now c day "17:00" task =
    match getWorkout d c (calculateCurrentWeek d now c) day with
    | Some workout =>
        {| title := w_title workout;
           description := w_description workout;
           mealContent := mealContent task |}
    | None => task
    end.
Proof. reflexivity. Qed.

Lemma resolveSlot_snack task :
  resolveSlot d now c day "16:00" task =
    match getMeal d c day with
    | Some meal =>
        {| title := title task;
           description := description task;
           mealContent := Some (snack meal) |}
    | None => task
    end.
Proof. reflexivity. Qed.

Lemma resolveSlot_mainMeal task :
  resolveSlot d now c day "22:00" task =
    match getMeal d c day with
    | Some meal =>
        {| title := title task;
           description := description task;
           mealContent := Some (mainMeal meal) |}
    | None => task
    end.
Proof. reflexivity. Qed.

Lemma resolveSlot_regular time task :
  time ≠ "17:00" → time ≠ "16:00" → time ≠ "22:00" →
  resolveSlot d now c day time task = task.
Proof.
  intros H17 H16 H22. unfold resolveSlot.
  destruct (String.eqb_spec time "17:00"); [done|].
  destruct (String.eqb_spec time "16:00"); [done|].
  destruct (String.eqb_spec time "22:00"); done.
Qed.

Lemma find_firstMatch {A : Type} (p : A → bool) (P : A → Prop) (rows : list A) (row : A) :
  (∀ x, p x = true ↔ P x) →
  find p rows = Some row ↔ firstMatch P rows row.
Proof.
  intros Hp. induction rows as [|x rows IH]; simpl.
  - split; [done|]. intros (before & after & Heq & _). by destruct before.
  - destruct (p x) eqn:Hx.
    + split.
      * intros [= ->]. exists [], rows. split; [done|]. split; [by apply Hp|].
        by intros other [].
      * intros ([|y before] & after & Heq & HP & Hfirst).
        -- by injection Heq as -> _.
        -- injection Heq as -> _. destruct (Hfirst y); [by left | by apply Hp].
    + rewrite IH. split.
      * intros (before & after & -> & HP & Hfirst).
        exists (x :: before), after. split; [done|]. split; [done|].
        intros other [<-|Hin]; [|by apply Hfirst].
        intros HPx%Hp. congruence.
      * intros ([|y before] & after & Heq & HP & Hfirst).
        -- injection Heq as -> _. apply Hp in HP. congruence.
        -- injection Heq as -> ->. exists before, after.
           split; [done|]. split; [done|]. intros other Hin. apply Hfirst. by right.
Qed.

Lemma find_no_match {A : Type} (p : A → bool) (P : A → Prop) (rows : list A) :
  (∀ x, p x = true ↔ P x) →
  find p rows = None ↔ ∀ x, In x rows → ¬ P x.
Proof.
  intros Hp. split.
  - intros Hnone x Hin HP%Hp. by rewrite (find_none p rows Hnone x Hin) in HP.
  - intros Hall. induction rows as [|x rows IH]; simpl; [done|].
    destruct (p x) eqn:Hx.
    + destruct (Hall x); [by left | by apply Hp].
    + apply IH. intros y Hy. apply Hall. by right.
Qed.

Lemma workout_matches week (w : Workout) :
  (w_chatId w =? c)%Z && (w_week w =? week)%Z && String.eqb (w_day w) day = true
  ↔ w_chatId w = c ∧ w_week w = week ∧ w_day w = day.
Proof. rewrite !andb_true_iff, !Z.eqb_eq, String.eqb_eq. tauto. Qed.

Lemma meal_matches (m : Meal) :
  (m_chatId m =? c)%Z && String.eqb (m_day m) day = true
  ↔ m_chatId m = c ∧ m_day m = day.
Proof. rewrite andb_true_iff, Z.eqb_eq, String.eqb_eq. tauto. Qed.

(** What a lookup that returns [found] says about the table: a first
    matching row gives [found = Some row], some matching row gives a
    matching [found], no matching row gives [found = None]. *)
Lemma found_cases {A : Type} (p : A → bool) (P : A → Prop) (rows : list A) :
  (∀ x, p x = true ↔ P x) →
  (∀ row, firstMatch P rows row → find p rows = Some row)
  ∧ ((∃ row, In row rows ∧ P row) → ∃ row, find p rows = Some row ∧ In row rows ∧ P row)
  ∧ ((∀ row, In row rows → ¬ P row) → find p rows = None).
Proof.
  intros Hp. split; [|split].
  - intros row. by apply find_firstMatch.
  - intros (row & Hin & HP). destruct (find p rows) as [found|] eqn:Hf.
    + exists found. split; [done|]. apply find_some in Hf as [? ?]. split; [done|].
      by apply Hp.
    + destruct (proj1 (find_no_match p P rows Hp) Hf row Hin HP).
  - by apply find_no_match.
Qed.

(** C5: for a user whose schedule row is [s] (the first row of that chat
    id; its object having, as every schedule the code stores, no key
    "__proto__"), [getScheduleForDay] returns an object with exactly the keys
    of the schedule.  Under "17:00" the title and description are those of the
    workout row of that chat id, the current week and the day - the first
    such row, whenever the table has one - and the entry is the schedule's
    own when the table has none; under "16:00" and "22:00" the entry gains
    [mealContent], the snack or the main meal of the meal row of that chat id
    and day, in the same way; every other entry is the schedule's own
    entry. *)
Theorem getScheduleForDay_spec s :
  firstMatch (λ row, s_chatId row = c) (schedules d) s →
  tasks s !! "__proto__" = None →
  let isWorkout := λ w, w_chatId w = c
                        ∧ w_week w = calculateCurrentWeek d now c
                        ∧ w_day w = day in
  let isMeal := λ m, m_chatId m = c ∧ m_day m = day in
  ∃ daySchedule,
    getScheduleForDay d now c day = Some daySchedule
    ∧ dom daySchedule = dom (tasks s)
    ∧ ∀ time task, tasks s !! time = Some task →
        ∃ shown,
          daySchedule !! time = Some shown
          ∧ (time = "17:00" →
             let override := λ w, {| title := w_title w;
                                     description := w_description w;
                                     mealContent := mealContent task |} in
             (∀ w, firstMatch isWorkout (workouts d) w → shown = override w)
             ∧ ((∃ w, In w (workouts d) ∧ isWorkout w) →
                ∃ w, In w (workouts d) ∧ isWorkout w ∧ shown = override w)
             ∧ ((∀ w, In w (workouts d) → ¬ isWorkout w) → shown = task))
          ∧ (time = "16:00" →
             let override := λ m, {| title := title task;
                                     description := description task;
                                     mealContent := Some (snack m) |} in
             (∀ m, firstMatch isMeal (meals d) m → shown = override m)
             ∧ ((∃ m, In m (meals d) ∧ isMeal m) →
                ∃ m, In m (meals d) ∧ isMeal m ∧ shown = override m)
             ∧ ((∀ m, In m (meals d) → ¬ isMeal m) → shown = task))
          ∧ (time = "22:00" →
             let override := λ m, {| title := title task;
                                     description := description task;
                                     mealContent := Some (mainMeal m) |} in
             (∀ m, firstMatch isMeal (meals d) m → shown = override m)
             ∧ ((∃ m, In m (meals d) ∧ isMeal m) →
                ∃ m, In m (meals d) ∧ isMeal m ∧ shown = override m)
             ∧ ((∀ m, In m (meals d) → ¬ isMeal m) → shown = task))
          ∧ (time ≠ "17:00" → time ≠ "16:00" → time ≠ "22:00" → shown = task).
Proof.
  intros Hs _ isWorkout isMeal.
  assert (Hschedule : getSchedule d c = Some (tasks s)).
  { unfold getSchedule.
    by rewrite (proj2 (find_firstMatch _ (λ row, s_chatId row = c) _ s
                         (λ row, Z.eqb_eq (s_chatId row) c)) Hs). }
  unfold getScheduleForDay. rewrite Hschedule.
  eexists. split; [reflexivity|]. split.
  { apply dom_imap_L. intros time. rewrite elem_of_dom. split.
    - intros [task Ht]. exists task. split; [done|]. by eexists.
    - intros (task & Ht & _). by eexists. }
  intros time task Ht. exists (resolveSlot d now c day time task).
  split; [by rewrite map_lookup_imap, Ht|].
  destruct (found_cases _ isWorkout (workouts d)
              (workout_matches (calculateCurrentWeek d now c)))
    as (Hwfirst & Hwsome & Hwnone).
  destruct (found_cases _ isMeal (meals d) meal_matches) as (Hmfirst & Hmsome & Hmnone).
  split; [|split; [|split]].
  - intros ->. rewrite resolveSlot_workout. unfold getWorkout. cbv zeta.
    split; [|split].
    + intros w Hw. by rewrite (Hwfirst w Hw).
    + intros Hex. destruct (Hwsome Hex) as (w & Hf & Hin & HP). rewrite Hf. by exists w.
    + intros Hnone. by rewrite (Hwnone Hnone).
  - intros ->. rewrite resolveSlot_snack. unfold getMeal. cbv zeta.
    split; [|split].
    + intros m Hm. by rewrite (Hmfirst m Hm).
    + intros Hex. destruct (Hmsome Hex) as (m & Hf & Hin & HP). rewrite Hf. by exists m.
    + intros Hnone. by rewrite (Hmnone Hnone).
  - intros ->. rewrite resolveSlot_mainMeal. unfold getMeal. cbv zeta.
    split; [|split].
    + intros m Hm. by rewrite (Hmfirst m Hm).
    + intros Hex. destruct (Hmsome Hex) as (m & Hf & Hin & HP). rewrite Hf. by exists m.
    + intros Hnone. by rewrite (Hmnone Hnone).
  - intros H17 H16 H22. by apply resolveSlot_regular.
Qed.

End ScheduleResolver.

Lemma getScheduleForDay_spec_witness :
  ∃ daySchedule shown,
    getScheduleForDay withSchedule 0 1 "Tuesday" = Some daySchedule
    ∧ daySchedule !! "17:00" = Some shown
    ∧ shown = {| title := "30 min VR fitness (moderate)";
                 description := "Workout for Tuesday";
                 mealContent := None |}.
Proof.
  destruct (schedules withSchedule) as [|s rest] eqn:Hrows; [discriminate Hrows|].
  assert (Hs : firstMatch (λ row, s_chatId row = 1%Z) (schedules withSchedule) s).
  { rewrite Hrows. exists [], rest. injection Hrows as <- <-.
    split; [reflexivity|]. split; [reflexivity|]. intros other []. }
  assert (Hown : tasks s !! "__proto__" = None).
  { injection Hrows as <- _. vm_compute. reflexivity. }
  destruct (getScheduleForDay_spec withSchedule 0 1 "Tuesday" s Hs Hown)
    as (daySchedule & Hget & _ & Hslots).
  injection Hrows as <- <-.
  destruct (Hslots "17:00" {| title := "Workout (See schedule)";
                              description := "generic";
                              mealContent := None |})
    as (shown & Hshown & Hworkout & _); [vm_compute; reflexivity|].
  exists daySchedule, shown. split; [exact Hget|]. split; [exact Hshown|].
  destruct (Hworkout eq_refl) as [Hfirst _].
  apply (Hfirst {| w_chatId := 1; w_week := 1; w_day := "Tuesday";
                   w_title := "30 min VR fitness (moderate)";
                   w_description := "Workout for Tuesday"; w_details := "" |}).
  exists [], []. split; [reflexivity|]. split; [|intros other []].
  split; [reflexivity|]. split; reflexivity.
Defined.

(** ** ProgressTracker: the store *)

Section Store.

Lemma find_assignProgress c p us user :
  find (λ u, (chatId u =? c)%Z) us = Some user →
  find (λ u, (chatId u =? c)%Z) (assignProgress c p us)
    = Some {| chatId := chatId user; startDate := startDate user; progress := Some p |}.
Proof.
  induction us as [|u rest IH]; simpl; [done|].
  destruct (chatId u =? c)%Z eqn:Hc; simpl.
  - intros [= ->]. by rewrite Hc.
  - rewrite Hc. apply IH.
Qed.

Lemma find_assignProgress_None c p us :
  find (λ u, (chatId u =? c)%Z) us = None → assignProgress c p us = us.
Proof.
  induction us as [|u rest IH]; simpl; [done|].
  destruct (chatId u =? c)%Z; [done|].
  intros H. by rewrite IH.
Qed.

Lemma findUser_writeProgress d c p user :
  findUser d c = Some user →
  findUser (writeProgress d c p) c
    = Some {| chatId := chatId user; startDate := startDate user; progress := Some p |}.
Proof. apply find_assignProgress. Qed.

Lemma weekOf_writeProgress d c p user week :
  findUser d c = Some user → weekOf (writeProgress d c p) c week = p !! week.
Proof.
  intros Hu. unfold weekOf. by rewrite (findUser_writeProgress d c p user Hu).
Qed.

Lemma weekOf_Some d c week wk :
  weekOf d c week = Some wk →
  ∃ user progress0,
    findUser d c = Some user ∧ progress user = Some progress0 ∧ progress0 !! week = Some wk.
Proof.
  unfold weekOf. destruct (findUser d c) as [user|]; [|done].
  destruct (progress user) as [progress0|] eqn:Hp; simpl; intros H.
  - by exists user, progress0.
  - by rewrite lookup_empty in H.
Qed.

End Store.

(** ** ProgressTracker: [updateProgress] for an unknown user, and the
    progress endpoint *)

(** C6: [updateProgress] for a chat id that matches no user returns without
    throwing and leaves the whole state as it was. *)
Theorem updateProgress_unknown_user d c task week flag :
  findUser d c = None → updateProgress d c task week flag = Done d.
Proof. intros Hu. unfold updateProgress. by rewrite Hu. Qed.

Lemma updateProgress_unknown_user_witness :
  updateProgress afterSecond 2 "monday_1700" "1" true = Done afterSecond.
Proof. apply updateProgress_unknown_user. reflexivity. Defined.

Lemma truthy_daily_object (wk : gmap string value) daily :
  truthy (<["daily" := VDaily daily]> wk !! "daily") = true.
Proof. by rewrite lookup_insert_eq. Qed.

(** C7: a second call of the progress endpoint, made on the state the first
    call left behind, sends the same object and leaves that state untouched;
    and when [daily] is already there (truthy) the endpoint sends the stored
    week object as it is and writes nothing. *)
Theorem getProgress_idempotent d c week :
  getProgress (getProgress d c week).2 c week = getProgress d c week
  ∧ (∀ wk, weekOf d c week = Some wk → truthy (wk !! "daily") = true →
       getProgress d c week = (wk, d)).
Proof.
  split.
  - unfold getProgress at 2 3.
    destruct (findUser d c) as [user|] eqn:Hu; simpl;
      [|unfold getProgress; by rewrite Hu].
    destruct (progress user) as [progress0|] eqn:Hp; simpl;
      [|unfold getProgress; by rewrite Hu, Hp].
    destruct (progress0 !! week) as [wk|] eqn:Hw; simpl;
      [|unfold getProgress; by rewrite Hu, Hp, Hw].
    destruct (truthy (wk !! "daily")) eqn:Ht; simpl.
    + unfold getProgress. by rewrite Hu, Hp, Hw, Ht.
    + unfold getProgress.
      rewrite (findUser_writeProgress d c _ user Hu). simpl.
      rewrite lookup_insert_eq, truthy_daily_object. reflexivity.
  - intros wk Hw Ht.
    destruct (weekOf_Some d c week wk Hw) as (user & progress0 & Hu & Hp & Hl).
    unfold getProgress. by rewrite Hu, Hp, Hl, Ht.
Qed.

Lemma getProgress_idempotent_witness :
  ∃ wk, weekOf afterSecond 1 "1" = Some wk ∧ getProgress afterSecond 1 "1" = (wk, afterSecond).
Proof.
  eexists. split; [reflexivity|].
  apply (proj2 (getProgress_idempotent afterSecond 1 "1")); reflexivity.
Defined.

(** ** ProgressTracker: what [updateProgress] stores and counts *)

Section Recount.

Implicit Types (wk : gmap string value) (p : string → bool).

Lemma countKeys_ext p wk1 wk2 :
  (∀ k, p k = true → wk1 !! k = wk2 !! k) → countKeys p wk1 = countKeys p wk2.
Proof.
  intros Hagree. unfold countKeys. f_equal.
  apply map_filter_strong_ext_1. intros k v. simpl.
  split; intros [Hp Hl]; (split; [done|]).
  - by rewrite <- Hagree.
  - by rewrite Hagree.
Qed.

Lemma countTrue_ext p wk1 wk2 :
  (∀ k, p k = true → wk1 !! k = wk2 !! k) → countTrue p wk1 = countTrue p wk2.
Proof.
  intros Hagree. unfold countTrue. f_equal.
  apply map_filter_strong_ext_1. intros k v. simpl.
  split; intros [Hp Hl]; (split; [done|]);
    apply andb_true_iff in Hp as [Hp _].
  - by rewrite <- Hagree.
  - by rewrite Hagree.
Qed.

Lemma countKeys_present p wk k v :
  p k = true → wk !! k = Some v → countKeys p wk = S (countKeys p (delete k wk)).
Proof.
  intros Hp Hl. unfold countKeys.
  rewrite <- (insert_delete_id wk k v Hl) at 1.
  rewrite map_filter_insert_True by done.
  rewrite map_size_insert_None; [done|].
  apply map_lookup_filter_None. left. apply lookup_delete_eq.
Qed.

Lemma includes_underscore_cons a rest :
  Js.includes (String a rest) "_" = Ascii.eqb a "_" || Js.includes rest "_".
Proof.
  change (Js.includes (String a rest) "_")
    with (String.prefix "_" (String a rest) || Js.includes rest "_").
  f_equal.
  change (String.prefix "_" (String a rest))
    with (match ascii_dec "_" a with
          | left _ => String.prefix "" rest
          | right _ => false
          end).
  destruct (ascii_dec "_" a) as [<-|Hne].
  - by destruct rest.
  - destruct (Ascii.eqb_spec a "_"); congruence.
Qed.

Lemma split_no_underscore s : Js.includes s "_" = false → Js.split "_" s = [s].
Proof.
  induction s as [|a rest IH]; [done|].
  rewrite includes_underscore_cons. intros [Ha Hrest]%orb_false_iff.
  cbn [Js.split]. by rewrite Ha, (IH Hrest).
Qed.

Lemma split_nonempty sep s : 0 < length (Js.split sep s).
Proof.
  induction s as [|a rest IH]; simpl; [lia|].
  destruct (Ascii.eqb a sep); simpl; [lia|].
  destruct (Js.split sep rest); simpl; lia.
Qed.

Lemma split_underscore s : Js.includes s "_" = true → 1 < length (Js.split "_" s).
Proof.
  induction s as [|a rest IH]; [done|].
  rewrite includes_underscore_cons. cbn [Js.split].
  destruct (Ascii.eqb a "_"); simpl.
  - intros _. pose proof (split_nonempty "_" rest). lia.
  - intros Hrest. specialize (IH Hrest).
    destruct (Js.split "_" rest); simpl in *; lia.
Qed.

Lemma storeTask_lookup_ne task flag wk k :
  k ≠ "daily" → storeTask task flag wk !! k = <[task := VBool flag]> wk !! k.
Proof.
  intros Hk. unfold storeTask.
  destruct (truthy _); [done|]. by rewrite lookup_insert_ne.
Qed.

Lemma storeTask_daily task flag wk :
  task ≠ "daily" →
  storeTask task flag wk !! "daily"
    = if truthy (wk !! "daily") then wk !! "daily" else Some (VDaily ∅).
Proof.
  intros Hk. unfold storeTask. rewrite lookup_insert_ne by done.
  destruct (truthy (wk !! "daily")).
  - by rewrite lookup_insert_ne.
  - by rewrite lookup_insert_eq.
Qed.

Lemma storeTask_daily_is_Some task flag wk :
  is_Some (storeTask task flag wk !! "daily").
Proof.
  unfold storeTask. destruct (truthy _) eqn:Ht.
  - destruct (_ !! "daily"); [by eexists | done].
  - rewrite lookup_insert_eq. by eexists.
Qed.

Lemma updateDaily_plain task wk :
  Js.includes task "_" = false → updateDaily task wk = inl wk.
Proof. intros Hplain. unfold updateDaily. by rewrite (split_no_underscore task Hplain). Qed.

Lemma updateDaily_inl task wk wk3 :
  updateDaily task wk = inl wk3 →
  (∀ k, k ≠ "daily" → wk3 !! k = wk !! k)
  ∧ (is_Some (wk !! "daily") → is_Some (wk3 !! "daily")).
Proof.
  unfold updateDaily. destruct (1 <? _)%nat.
  - destruct (wk !! "daily") as [[| |daily]|] eqn:Hd; try done.
    intros [= <-]. split.
    + intros k Hk. by rewrite !lookup_insert_ne.
    + intros _. rewrite lookup_insert_eq. by eexists.
  - by intros [= <-].
Qed.


Lemma updateProgress_Done d c user task week flag d' :
  findUser d c = Some user →
  updateProgress d c task week flag = Done d' →
  ∃ wk3,
    updateDaily task (storeTask task flag (default ∅ (weekOf d c week))) = inl wk3
    ∧ weekOf d' c week = Some (updateTotals wk3).
Proof.
  intros Hu. unfold updateProgress, weekOf. rewrite Hu.
  destruct (updateDaily _ _) as [wk3|thrown] eqn:Hd; [|done].
  intros [= <-]. exists wk3. split; [done|].
  fold (weekOf (writeProgress d c (<[week:=updateTotals wk3]> (default ∅ (progress user)))) c week).
  rewrite (weekOf_writeProgress d c _ user week Hu). apply lookup_insert_eq.
Qed.


(** The week object after a completed update, read key by key. *)
Lemma updateProgress_Done_lookup d c user task week flag d' :
  findUser d c = Some user →
  updateProgress d c task week flag = Done d' →
  let stored := <[task := VBool flag]> (default ∅ (weekOf d c week)) in
  ∃ wk',
    weekOf d' c week = Some wk'
    ∧ wk' !! "total" = Some (VNum (countKeys notDaily stored))
    ∧ wk' !! "completed" = Some (VNum (countTrue notDaily stored))
    ∧ is_Some (wk' !! "daily")
    ∧ ∀ k, k ≠ "daily" → k ≠ "total" → k ≠ "completed" → wk' !! k = stored !! k.
Proof.
  intros Hu Hdone stored.
  destruct (updateProgress_Done d c user task week flag d' Hu Hdone) as (wk3 & Hd & Hw).
  destruct (updateDaily_inl _ _ _ Hd) as [Hsame Hdaily].
  assert (Hcounted : ∀ k, notDaily k = true → wk3 !! k = stored !! k).
  { intros k Hk. assert (k ≠ "daily") by (intros ->; done).
    rewrite Hsame by done. by apply storeTask_lookup_ne. }
  exists (updateTotals wk3). split; [done|]. unfold updateTotals.
  split; [|split; [|split]].
  - rewrite lookup_insert_ne by done. rewrite lookup_insert_eq.
    do 2 f_equal. by apply countKeys_ext.
  - rewrite lookup_insert_eq. do 2 f_equal. by apply countTrue_ext.
  - rewrite !lookup_insert_ne by done. apply Hdaily, storeTask_daily_is_Some.
  - intros k H1 H2 H3. rewrite !lookup_insert_ne by done.
    rewrite Hsame by done. by apply storeTask_lookup_ne.
Qed.

End Recount.

(** ** ProgressTracker: the recorded scenarios *)

Example getProgress_backfills_legacy :
  ∃ daily,
    (getProgress legacy 1 "1").1 !! "daily" = Some (VDaily daily)
    ∧ daily = {[ "monday" := {| completed := 1; total := 2 |} ]}
    ∧ weekOf (getProgress legacy 1 "1").2 1 "1" = Some (getProgress legacy 1 "1").1.
Proof. eexists. split; [reflexivity|]. split; vm_compute; reflexivity. Qed.

Example getProgress_unknown_week :
  getProgress enrolled 1 "3" = (emptyProgress, enrolled).
Proof. reflexivity. Qed.

(** C1: on a freshly enrolled user, [updateProgress(1, "monday_1700", "1",
    true)] followed by [updateProgress(1, "monday_1600", "1", false)] both
    complete, and the progress endpoint then reports [daily.monday] as
    [{ completed: 1, total: 1 }], [total] as 4 and [completed] as 1: the
    day's total is only counted when the day is first seen, and the second
    week recount counts the stored [total] and [completed] keys. *)
Theorem monday_scenario_report :
  updateProgress enrolled 1 "monday_1700" "1" true = Done afterFirst
  ∧ updateProgress afterFirst 1 "monday_1600" "1" false = Done afterSecond
  ∧ ∃ daily,
      (getProgress afterSecond 1 "1").1 !! "daily" = Some (VDaily daily)
      ∧ daily !! "monday" = Some {| completed := 1; total := 1 |}
      ∧ (getProgress afterSecond 1 "1").1 !! "total" = Some (VNum 4)
      ∧ (getProgress afterSecond 1 "1").1 !! "completed" = Some (VNum 1).
Proof.
  split; [vm_compute; reflexivity|].
  split; [vm_compute; reflexivity|].
  eexists. split; [vm_compute; reflexivity|].
  repeat split; vm_compute; reflexivity.
Qed.

(** C2: after the same two updates the stored week object holds two task
    entries, one of them true, both of Monday; yet its [total] is 4 and the
    [total] of [daily.monday] is 1, so the stored counters are not the counts
    of the task entries. *)
Theorem monday_scenario_counters_drift :
  ∃ wk daily counter,
    weekOf afterSecond 1 "1" = Some wk
    ∧ wk !! "daily" = Some (VDaily daily)
    ∧ daily !! "monday" = Some counter
    ∧ size (taskEntries wk) = 2
    ∧ countTrue (λ _, true) (taskEntries wk) = 1
    ∧ countKeys (ofDay "monday") (taskEntries wk) = 2
    ∧ wk !! "total" = Some (VNum 4)
    ∧ wk !! "completed" = Some (VNum 1)
    ∧ total counter = 1
    ∧ completed counter = 1.
Proof.
  eexists _, _, _.
  split; [vm_compute; reflexivity|].
  split; [vm_compute; reflexivity|].
  split; [vm_compute; reflexivity|].
  repeat split; vm_compute; reflexivity.
Qed.

(** C3: after [updateProgress(1, "monday_a", "1", true)] and
    [updateProgress(1, "monday_b", "1", true)] on a freshly enrolled user the
    stored counter of Monday is [{ completed: 2, total: 1 }]: [completed] is
    recounted by every update, [total] only by the first one of the day, so
    [completed <= total] fails. *)
Theorem monday_completed_exceeds_total :
  ∃ wk daily counter,
    weekOf afterTwoDone 1 "1" = Some wk
    ∧ wk !! "daily" = Some (VDaily daily)
    ∧ daily !! "monday" = Some counter
    ∧ completed counter = 2
    ∧ total counter = 1
    ∧ ¬ (completed counter ≤ total counter)%nat.
Proof.
  eexists _, _, _.
  split; [vm_compute; reflexivity|].
  split; [vm_compute; reflexivity|].
  split; [vm_compute; reflexivity|].
  split; [reflexivity|]. split; [reflexivity|]. simpl. lia.
Qed.

(** ** ProgressTracker: keys without a day, and keys that collide with the
    aggregates *)

Section SharedNamespace.

Implicit Types (wk : gmap string value).


Lemma storeTask_lookup_task task flag wk :
  ¬ (task = "daily" ∧ flag = false) →
  storeTask task flag wk !! task = Some (VBool flag).
Proof.
  intros Hnot. destruct (decide (task = "daily")) as [->|Hne].
  - destruct flag; [|by destruct Hnot].
    unfold storeTask. cbv zeta. rewrite lookup_insert_eq. simpl.
    apply lookup_insert_eq.
  - rewrite storeTask_lookup_ne by done. apply lookup_insert_eq.
Qed.



(** C8, as amended: for a user that exists, a week key that is not an
    inherited property name and a task key without underscore other than
    "daily", "total" and "completed", [updateProgress] completes; the flag is
    stored under the key, [total] and [completed] are recounted over the
    object holding it, and [daily] is left as it was (an empty object is put
    there if it was missing). *)
Theorem updateProgress_plain_key d c user task week flag :
  findUser d c = Some user →
  inherited week = false →
  Js.includes task "_" = false →
  task ≠ "daily" → task ≠ "total" → task ≠ "completed" →
  recordsWithoutDay d c task week flag.
Proof.
  intros Hu _ Hplain Hd Ht Hc. unfold recordsWithoutDay.
  assert (Hdone : ∃ d', updateProgress d c task week flag = Done d').
  { unfold updateProgress. rewrite Hu, (updateDaily_plain _ _ Hplain). by eexists. }
  destruct Hdone as [d' Hdone]. exists d'.
  destruct (updateProgress_Done d c user task week flag d' Hu Hdone) as (wk3 & Hwk3 & Hw).
  rewrite (updateDaily_plain _ _ Hplain) in Hwk3. injection Hwk3 as <-.
  eexists. split; [done|]. split; [done|]. unfold updateTotals.
  split; [|split; [|split]].
  - rewrite !lookup_insert_ne by done. by apply storeTask_lookup_task; intros [? _].
  - rewrite lookup_insert_ne by done. rewrite lookup_insert_eq. do 2 f_equal.
    apply countKeys_ext. intros k Hk. apply storeTask_lookup_ne. by intros ->.
  - rewrite lookup_insert_eq. do 2 f_equal.
    apply countTrue_ext. intros k Hk. apply storeTask_lookup_ne. by intros ->.
  - rewrite !lookup_insert_ne by done. by apply storeTask_daily.
Qed.

Lemma updateProgress_plain_key_witness :
  recordsWithoutDay afterSecond 1 "water" "1" true.
Proof.
  by apply (updateProgress_plain_key afterSecond 1 _ "water" "1" true eq_refl eq_refl).
Defined.

(** C8 as stated fails: on a freshly enrolled user
    [updateProgress(1, "total", "1", true)] completes, but the key "total"
    then holds the week counter 1, not the flag. *)
Lemma updateProgress_total_key_overwritten :
  Js.includes "total" "_" = false
  ∧ (∃ d' wk',
       updateProgress enrolled 1 "total" "1" true = Done d'
       ∧ weekOf d' 1 "1" = Some wk'
       ∧ wk' !! "total" = Some (VNum 1))
  ∧ ¬ recordsWithoutDay enrolled 1 "total" "1" true.
Proof.
  assert (Heval : ∃ d' wk',
            updateProgress enrolled 1 "total" "1" true = Done d'
            ∧ weekOf d' 1 "1" = Some wk'
            ∧ wk' !! "total" = Some (VNum 1)).
  { eexists _, _. split; [vm_compute; reflexivity|].
    split; vm_compute; reflexivity. }
  split; [reflexivity|]. split; [exact Heval|].
  destruct Heval as (d1 & wk1 & Hdone1 & Hw1 & Hstored).
  intros (d' & wk' & Hdone & Hw & Htask & _).
  rewrite Hdone1 in Hdone. injection Hdone as <-.
  rewrite Hw1 in Hw. injection Hw as <-.
  rewrite Hstored in Htask. discriminate.
Qed.





End SharedNamespace.



(** ** Further properties: the program week *)

Section WeekSteps.

Local Open Scope Z_scope.

Variables (d : Db) (c : Z) (user : User) (start : Z).
Hypothesis Huser : findUser d c = Some user.
Hypothesis Hstart : startDate user = Some start.

Lemma weekSince_quotient now :
  start ≤ now → weekSince start now = Z.min ((now - start) / (7 * 86400000) + 1) 8.
Proof.
  intros Hle. rewrite weekSince_eq, Z.abs_eq by lia.
  rewrite Z.div_div by lia. reflexivity.
Qed.

(** X1: from the start date on, seven more days on the clock move the week
    up by exactly one, until it stays at 8. *)
Theorem calculateCurrentWeek_next_week now :
  start ≤ now →
  calculateCurrentWeek d (now + 7 * 86400000) c
    = Z.min (calculateCurrentWeek d now c + 1) 8.
Proof.
  intros Hle.
  rewrite !(calculateCurrentWeek_started d _ c user start Huser Hstart).
  rewrite !weekSince_quotient by lia.
  replace (now + 7 * 86400000 - start) with ((now - start) + 1 * (7 * 86400000)) by lia.
  rewrite Z.div_add by lia.
  assert (0 ≤ (now - start) / (7 * 86400000)) by (apply Z.div_pos; lia).
  lia.
Qed.

(** X2: from the start date on, the week is [k] (for [k] from 1 to 7)
    exactly while the elapsed time is at least [k - 1] and less than [k]
    whole weeks, and it is 8 exactly from 49 days on. *)
Theorem calculateCurrentWeek_window now k :
  start ≤ now →
  (1 ≤ k ≤ 7 →
     calculateCurrentWeek d now c = k
     ↔ (k - 1) * (7 * 86400000) ≤ now - start < k * (7 * 86400000))
  ∧ (calculateCurrentWeek d now c = 8 ↔ 49 * 86400000 ≤ now - start).
Proof.
  intros Hle.
  rewrite (calculateCurrentWeek_started d _ c user start Huser Hstart).
  rewrite weekSince_quotient by lia.
  pose proof (Z.div_mod (now - start) (7 * 86400000) ltac:(lia)) as Hdm.
  pose proof (Z.mod_pos_bound (now - start) (7 * 86400000) ltac:(lia)) as Hmod.
  set (q := (now - start) / (7 * 86400000)) in *.
  set (r := (now - start) mod (7 * 86400000)) in *.
  split; [intros Hk|]; split; intros H; lia.
Qed.

End WeekSteps.

Lemma calculateCurrentWeek_next_week_witness :
  (calculateCurrentWeek enrolled (86400000 + 7 * 86400000) 1
     = Z.min (calculateCurrentWeek enrolled 86400000 1 + 1) 8)%Z.
Proof.
  apply (calculateCurrentWeek_next_week enrolled 1 _ 0%Z eq_refl eq_refl). lia.
Defined.

Lemma calculateCurrentWeek_window_witness :
  (calculateCurrentWeek enrolled 864000000 1 = 2%Z
   ↔ ((2 - 1) * (7 * 86400000) ≤ 864000000 - 0 < 2 * (7 * 86400000))%Z)
  ∧ (calculateCurrentWeek enrolled 864000000 1 = 8%Z
     ↔ (49 * 86400000 ≤ 864000000 - 0)%Z).
Proof.
  destruct (calculateCurrentWeek_window enrolled 1 _ 0%Z eq_refl eq_refl 864000000 2%Z)
    as [Hk Hcap]; [lia|].
  split; [apply Hk; lia | exact Hcap].
Defined.

(** ** Further properties: what recording progress leaves alone *)

Section Frame.

Lemma find_assignProgress_ne c c' p us :
  c' ≠ c →
  find (λ u, (chatId u =? c')%Z) (assignProgress c p us)
    = find (λ u, (chatId u =? c')%Z) us.
Proof.
  intros Hne. induction us as [|u rest IH]; simpl; [done|].
  destruct (Z.eqb_spec (chatId u) c) as [Hc|Hc]; simpl.
  - destruct (Z.eqb_spec (chatId u) c'); [congruence | done].
  - by rewrite IH.
Qed.

Lemma assignProgress_chatIds c p us :
  map chatId (assignProgress c p us) = map chatId us.
Proof.
  induction us as [|u rest IH]; simpl; [done|].
  destruct (chatId u =? c)%Z; simpl; [done | by rewrite IH].
Qed.

Lemma writeProgress_startDate d c p c' :
  startDate <$> findUser (writeProgress d c p) c' = startDate <$> findUser d c'.
Proof.
  destruct (decide (c' = c)) as [->|Hne].
  - destruct (findUser d c) as [user|] eqn:Hu.
    + by rewrite (findUser_writeProgress d c p user Hu).
    + unfold findUser, writeProgress in *. simpl.
      by rewrite (find_assignProgress_None c p _ Hu), Hu.
  - unfold findUser, writeProgress. simpl. by rewrite find_assignProgress_ne.
Qed.

Lemma calculateCurrentWeek_startDate d d' now c :
  startDate <$> findUser d' c = startDate <$> findUser d c →
  calculateCurrentWeek d' now c = calculateCurrentWeek d now c.
Proof.
  unfold calculateCurrentWeek.
  destruct (findUser d' c) as [u'|], (findUser d c) as [u|]; simpl; try done.
  by intros [= ->].
Qed.

Lemma getScheduleForDay_same_rows d d' now c day :
  schedules d' = schedules d → workouts d' = workouts d → meals d' = meals d →
  calculateCurrentWeek d' now c = calculateCurrentWeek d now c →
  getScheduleForDay d' now c day = getScheduleForDay d now c day.
Proof.
  intros Hs Hw Hm Hweek. unfold getScheduleForDay, getSchedule. rewrite Hs.
  destruct (find _ (schedules d)) as [schedule|]; [|done].
  f_equal. apply map_imap_ext. intros time.
  destruct (tasks schedule !! time) as [task|]; simpl; [|done].
  do 2 f_equal. unfold resolveSlot, getWorkout, getMeal. by rewrite Hw, Hm, Hweek.
Qed.

Lemma updateProgress_state d c user task week flag :
  findUser d c = Some user →
  ∃ wk, stateOf (updateProgress d c task week flag)
          = writeProgress d c (<[week := wk]> (default ∅ (progress user))).
Proof.
  intros Hu. unfold updateProgress. rewrite Hu.
  destruct (updateDaily _ _); simpl; by eexists.
Qed.

(** X3: for a week key that is not an inherited property name, whatever its
    outcome, [updateProgress(chatId, task, week, ...)] changes nothing but the
    week object [progress[week]] of its user: the other users, the other
    weeks of that user, the chat ids, the schedules, workouts and meals stay
    as they were, and with them the current week and the day schedule of
    every user. *)
Theorem updateProgress_frame d c task week flag :
  inherited week = false →
  let d' := stateOf (updateProgress d c task week flag) in
  (∀ c', c' ≠ c → findUser d' c' = findUser d c')
  ∧ (∀ week', week' ≠ week → weekOf d' c week' = weekOf d c week')
  ∧ map chatId (users d') = map chatId (users d)
  ∧ schedules d' = schedules d
  ∧ workouts d' = workouts d
  ∧ meals d' = meals d
  ∧ (∀ now c', calculateCurrentWeek d' now c' = calculateCurrentWeek d now c')
  ∧ (∀ now c' day, getScheduleForDay d' now c' day = getScheduleForDay d now c' day).
Proof.
  intros _ d'. subst d'.
  destruct (findUser d c) as [user|] eqn:Hu.
  - destruct (updateProgress_state d c user task week flag Hu) as [wk ->].
    assert (Hweek : ∀ now c',
              calculateCurrentWeek (writeProgress d c (<[week:=wk]> (default ∅ (progress user)))) now c'
              = calculateCurrentWeek d now c').
    { intros now c'. apply calculateCurrentWeek_startDate, writeProgress_startDate. }
    split; [|split; [|split; [|split; [|split; [|split; [|split]]]]]]; try done.
    + intros c' Hne. unfold findUser, writeProgress. simpl.
      by apply find_assignProgress_ne.
    + intros week' Hne. rewrite (weekOf_writeProgress d c _ user week' Hu).
      rewrite lookup_insert_ne by done. unfold weekOf. by rewrite Hu.
    + apply assignProgress_chatIds.
    + intros now c' day. by apply getScheduleForDay_same_rows.
  - unfold updateProgress. rewrite Hu. simpl. repeat split.
Qed.

Lemma countTrue_le_countKeys p (wk : gmap string value) :
  (countTrue p wk ≤ countKeys p wk)%nat.
Proof.
  unfold countTrue, countKeys. apply map_subseteq_size.
  apply map_subseteq_spec. intros k v [Hl Hp]%map_lookup_filter_Some.
  apply map_lookup_filter_Some. split; [done|].
  simpl in *. by apply andb_true_iff in Hp as [Hp _].
Qed.

(** X4: after every update that completes (of a week whose key is not an
    inherited property name), the week object holds its two counters as
    numbers and [completed] is at most [total]. *)
Theorem updateProgress_week_counters d c user task week flag d' :
  findUser d c = Some user →
  inherited week = false →
  updateProgress d c task week flag = Done d' →
  ∃ wk' totalTasks completedTasks,
    weekOf d' c week = Some wk'
    ∧ wk' !! "total" = Some (VNum totalTasks)
    ∧ wk' !! "completed" = Some (VNum completedTasks)
    ∧ (completedTasks ≤ totalTasks)%nat.
Proof.
  intros Hu _ Hdone.
  destruct (updateProgress_Done_lookup d c user task week flag d' Hu Hdone)
    as (wk' & Hw & Htotal & Hcompleted & _).
  exists wk'. eexists _, _. split; [done|]. split; [done|]. split; [done|].
  apply countTrue_le_countKeys.
Qed.

End Frame.

Lemma updateProgress_week_counters_witness :
  ∃ wk' totalTasks completedTasks,
    weekOf afterSecond 1 "1" = Some wk'
    ∧ wk' !! "total" = Some (VNum totalTasks)
    ∧ wk' !! "completed" = Some (VNum completedTasks)
    ∧ (completedTasks ≤ totalTasks)%nat.
Proof.
  apply (updateProgress_week_counters afterFirst 1 _ "monday_1600" "1" false afterSecond
           eq_refl eq_refl).
  reflexivity.
Defined.

(** ** Further properties: the day counters kept by [updateProgress] *)

Section DayCounters.

Implicit Types (wk : gmap string value).

Lemma includes_unfold s sub :
  Js.includes s sub
    = String.prefix sub s
      || match s with
         | EmptyString => false
         | String _ rest => Js.includes rest sub
         end.
Proof. by destruct s. Qed.

Lemma prefix_empty s : String.prefix "" s = true.
Proof. by destruct s. Qed.

Lemma prefix_cons a s t : String.prefix (String a s) (String a t) = String.prefix s t.
Proof. cbn [String.prefix]. by destruct (ascii_dec a a). Qed.

Lemma prefix_append_includes a b s :
  String.prefix (String.append a b) s = true → Js.includes s b = true.
Proof.
  revert s. induction a as [|x a IH]; intros s.
  - change (String.append "" b) with b.
    intros H. by rewrite includes_unfold, H.
  - change (String.append (String x a) b) with (String x (String.append a b)).
    destruct s as [|y s]; cbn [String.prefix]; [done|].
    destruct (ascii_dec x y); [|done].
    intros H. rewrite includes_unfold, (IH s H). apply orb_true_r.
Qed.

Lemma ofDay_underscore day key : ofDay day key = true → Js.includes key "_" = true.
Proof. apply prefix_append_includes. Qed.

Lemma ofDay_daily day : ofDay day "daily" = false.
Proof.
  destruct (ofDay day "daily") eqn:H; [|done].
  by apply ofDay_underscore in H.
Qed.

Lemma split_hd_ofDay task :
  Js.includes task "_" = true → ofDay (hd "" (Js.split "_" task)) task = true.
Proof.
  unfold ofDay, Js.startsWith.
  induction task as [|a rest IH]; [done|].
  rewrite includes_underscore_cons. cbn [Js.split].
  destruct (Ascii.eqb_spec a "_") as [->|Hne]; simpl orb.
  - intros _. cbn [hd]. change (String.append "" "_") with "_".
    by rewrite prefix_cons, prefix_empty.
  - intros Hrest. specialize (IH Hrest).
    pose proof (split_nonempty "_" rest) as Hlen.
    destruct (Js.split "_" rest) as [|part parts]; [simpl in Hlen; lia|].
    cbn [hd] in *.
    change (String.append (String a part) "_") with (String a (String.append part "_")).
    by rewrite prefix_cons.
Qed.

Lemma underscore_not_daily task : Js.includes task "_" = true → task ≠ "daily".
Proof. by intros H ->. Qed.

Lemma storeTask_dailyOf task flag wk daily :
  task ≠ "daily" →
  storeTask task flag wk !! "daily" = Some (VDaily daily) →
  daily = dailyOf wk.
Proof.
  intros Hne. rewrite storeTask_daily by done. unfold dailyOf.
  destruct (wk !! "daily") as [[[]|[]|]|]; simpl; congruence.
Qed.

(** X5: when an update with a key of the shape [day_slot] completes (the
    week key and the day not being inherited property names, the key not
    being "__proto__"), the
    counter of that day has [completed] equal to the number of the day's keys
    whose flag is true, the new flag included; its [total] is the number of
    the day's keys when the day had no counter yet (at least 1), and is left
    as it was otherwise; the counters of the other days are untouched. *)
Theorem updateProgress_day_counter d c user task week flag d' :
  findUser d c = Some user →
  Js.includes task "_" = true →
  task ≠ "__proto__" →
  inherited week = false →
  inherited (hd "" (Js.split "_" task)) = false →
  updateProgress d c task week flag = Done d' →
  let day := hd "" (Js.split "_" task) in
  let week0 := default ∅ (weekOf d c week) in
  let stored := <[task := VBool flag]> week0 in
  ∃ wk' daily counter,
    weekOf d' c week = Some wk'
    ∧ wk' !! "daily" = Some (VDaily daily)
    ∧ daily !! day = Some counter
    ∧ completed counter = countTrue (ofDay day) stored
    ∧ total counter
        = match dailyOf week0 !! day with
          | Some old => total old
          | None => countKeys (ofDay day) stored
          end
    ∧ (1 ≤ countKeys (ofDay day) stored)%nat
    ∧ ∀ day', day' ≠ day → daily !! day' = dailyOf week0 !! day'.
Proof.
  intros Hu Hshape _ _ _ Hdone day week0 stored.
  pose proof (underscore_not_daily task Hshape) as Hne.
  destruct (updateProgress_Done d c user task week flag d' Hu Hdone) as (wk3 & Hwk3 & Hw).
  fold week0 in Hwk3. unfold updateDaily in Hwk3.
  pose proof (split_underscore task Hshape) as Hlen.
  apply Nat.ltb_lt in Hlen. rewrite Hlen in Hwk3.
  fold day in Hwk3.
  destruct (storeTask task flag week0 !! "daily") as [[| |before]|] eqn:Hdaily; try done.
  apply storeTask_dailyOf in Hdaily as ->; [|done].
  set (wk2 := storeTask task flag week0) in *.
  assert (Hkeys : ∀ v k, ofDay day k = true →
            <["daily" := v]> wk2 !! k = stored !! k).
  { intros v k Hk. assert (k ≠ "daily") by (intros ->; by rewrite ofDay_daily in Hk).
    rewrite lookup_insert_ne by done. by apply storeTask_lookup_ne. }
  assert (Hkeys2 : ∀ k, ofDay day k = true → wk2 !! k = stored !! k).
  { intros k Hk. apply storeTask_lookup_ne. intros ->. by rewrite ofDay_daily in Hk. }
  injection Hwk3 as <-.
  assert (Hcount : (1 ≤ countKeys (ofDay day) stored)%nat).
  { rewrite (countKeys_present (ofDay day) stored task (VBool flag)).
    - lia.
    - by apply split_hd_ofDay.
    - apply lookup_insert_eq. }
  destruct (dailyOf week0 !! day) as [old|] eqn:Hold.
  - eexists _, _.
    exists {| completed := countTrue (ofDay day) stored; total := total old |}.
    split; [exact Hw|]. split.
    { unfold updateTotals. rewrite !lookup_insert_ne by done. apply lookup_insert_eq. }
    split.
    { rewrite lookup_alter_eq, Hold. simpl. do 2 f_equal.
      apply countTrue_ext. apply Hkeys. }
    split; [done|]. split; [done|]. split; [done|].
    intros day' Hday'. by rewrite lookup_alter_ne.
  - eexists _, _.
    exists {| completed := countTrue (ofDay day) stored;
              total := countKeys (ofDay day) stored |}.
    split; [exact Hw|]. split.
    { unfold updateTotals. rewrite !lookup_insert_ne by done. apply lookup_insert_eq. }
    split.
    { rewrite lookup_alter_eq, lookup_insert_eq. simpl. f_equal. f_equal.
      - apply countTrue_ext. apply Hkeys.
      - by apply countKeys_ext. }
    split; [done|]. split; [done|]. split; [done|].
    intros day' Hday'. rewrite lookup_alter_ne by done. by rewrite lookup_insert_ne.
Qed.

End DayCounters.

Lemma updateProgress_day_counter_witness :
  ∃ wk' daily counter,
    weekOf afterSecond 1 "1" = Some wk'
    ∧ wk' !! "daily" = Some (VDaily daily)
    ∧ daily !! "monday" = Some counter
    ∧ completed counter
        = countTrue (ofDay "monday")
            (<["monday_1600" := VBool false]> (default ∅ (weekOf afterFirst 1 "1"))).
Proof.
  assert (Htask : "monday_1600" ≠ "__proto__") by discriminate.
  destruct (updateProgress_day_counter afterFirst 1 _ "monday_1600" "1" false afterSecond
              eq_refl eq_refl Htask eq_refl eq_refl eq_refl)
    as (wk' & daily & counter & Hw & Hdaily & Hcounter & Hcompleted & _).
  exists wk', daily, counter. repeat split; assumption.
Defined.

Section FirstAndPoisoned.

Implicit Types (wk : gmap string value).

Lemma countKeys_singleton p key v :
  countKeys p ({[ key := v ]} : gmap string value) = if p key then 1 else 0.
Proof.
  unfold countKeys. rewrite map_filter_singleton.
  case_decide as Hp; simpl in Hp.
  - rewrite Hp. apply map_size_singleton.
  - destruct (p key); [done|]. apply map_size_empty.
Qed.

Lemma countTrue_singleton p key v :
  countTrue p ({[ key := v ]} : gmap string value)
    = if p key && strictTrue v then 1 else 0.
Proof.
  unfold countTrue. rewrite map_filter_singleton.
  case_decide as Hp; simpl in Hp.
  - rewrite Hp. apply map_size_singleton.
  - destruct (p key && strictTrue v); [done|]. apply map_size_empty.
Qed.

Lemma weekOf_None_default d c user week :
  findUser d c = Some user → weekOf d c week = None →
  default ∅ (progress user) !! week = None.
Proof. intros Hu. unfold weekOf. by rewrite Hu. Qed.

(** X6: the first update of a week with a key of the shape [day_slot] (the
    week key and the day not being inherited property names, the key not
    being "__proto__") completes and leaves exact counters: the week object
    holds the flag, a
    [daily] object with the one counter [{ completed: 0 or 1, total: 1 }] of
    that day, and [total] 1 with [completed] 0 or 1 (both 0 when the key
    contains "daily"). *)
Theorem updateProgress_first_of_week d c user task week flag :
  findUser d c = Some user →
  weekOf d c week = None →
  Js.includes task "_" = true →
  task ≠ "__proto__" →
  inherited week = false →
  inherited (hd "" (Js.split "_" task)) = false →
  let day := hd "" (Js.split "_" task) in
  ∃ d',
    updateProgress d c task week flag = Done d'
    ∧ weekOf d' c week
        = Some (<["completed" := VNum (if notDaily task && flag then 1 else 0)]>
               (<["total" := VNum (if notDaily task then 1 else 0)]>
               (<["daily" := VDaily {[ day := {| completed := if flag then 1 else 0;
                                                 total := 1 |} ]}]>
               {[ task := VBool flag ]}))).
Proof.
  intros Hu Hnone Hshape _ _ _ day.
  pose proof (underscore_not_daily task Hshape) as Hne.
  pose proof (split_hd_ofDay task Hshape) as Hday. fold day in Hday.
  pose proof (split_underscore task Hshape) as Hlen. apply Nat.ltb_lt in Hlen.
  assert (Hstore : storeTask task flag ∅ = <["daily" := VDaily ∅]> {[ task := VBool flag ]}).
  { unfold storeTask. cbv zeta. rewrite insert_empty.
    by rewrite lookup_singleton_ne. }
  assert (Hone : ∀ p v, p "daily" = false →
            countKeys p (<["daily" := v]> {[ task := VBool flag ]})
            = if p task then 1 else 0).
  { intros p v Hp. rewrite <- countKeys_singleton with (v := VBool flag).
    apply countKeys_ext. intros k Hk. apply lookup_insert_ne. by intros <-; congruence. }
  assert (Htrue : ∀ p v, p "daily" = false →
            countTrue p (<["daily" := v]> {[ task := VBool flag ]})
            = if p task && flag then 1 else 0).
  { intros p v Hp.
    replace (p task && flag) with (p task && strictTrue (VBool flag)) by by destruct flag.
    rewrite <- countTrue_singleton.
    apply countTrue_ext. intros k Hk. apply lookup_insert_ne. by intros <-; congruence. }
  unfold updateProgress. rewrite Hu.
  rewrite (weekOf_None_default d c user week Hu Hnone). simpl default.
  rewrite Hstore. unfold updateDaily. rewrite Hlen. fold day.
  rewrite lookup_insert_eq, lookup_empty.
  eexists. split; [reflexivity|].
  rewrite (weekOf_writeProgress d c _ user week Hu), lookup_insert_eq. f_equal.
  unfold updateTotals.
  rewrite !insert_insert_eq.
  rewrite (Hone (ofDay day)) by apply ofDay_daily.
  rewrite (Htrue (ofDay day)) by apply ofDay_daily.
  rewrite (Hone notDaily), (Htrue notDaily) by done.
  rewrite Hday. simpl andb.
  by rewrite insert_empty, alter_singleton_eq.
Qed.

(** X7: for a week key that is not an inherited property name,
    [updateProgress(chatId, "daily", week, true)] completes and leaves the
    flag where the [daily] object is expected; from such a state every update
    of that week with a key of the shape [day_slot] - the day not being an
    inherited property name, the key not being "__proto__" - throws, leaving
    the new flag in the week object and everything else in it, the counters
    included, as it was. *)
Theorem updateProgress_daily_flag_throws d c user week :
  findUser d c = Some user →
  inherited week = false →
  (∃ d1 wk1,
     updateProgress d c "daily" week true = Done d1
     ∧ weekOf d1 c week = Some wk1
     ∧ wk1 !! "daily" = Some (VBool true))
  ∧ (∀ wk task flag,
       weekOf d c week = Some wk →
       wk !! "daily" = Some (VBool true) →
       Js.includes task "_" = true →
       task ≠ "__proto__" →
       inherited (hd "" (Js.split "_" task)) = false →
       ∃ d',
         updateProgress d c task week flag = TypeError d'
         ∧ weekOf d' c week = Some (<[task := VBool flag]> wk)).
Proof.
  intros Hu _. split.
  - unfold updateProgress. rewrite Hu.
    assert (Hstore : ∀ wk, storeTask "daily" true wk = <["daily" := VBool true]> wk).
    { intros wk. unfold storeTask. cbv zeta. by rewrite lookup_insert_eq. }
    rewrite Hstore, updateDaily_plain by done.
    eexists _, _. split; [reflexivity|].
    rewrite (weekOf_writeProgress d c _ user week Hu), lookup_insert_eq.
    split; [reflexivity|]. unfold updateTotals.
    rewrite !lookup_insert_ne by done. apply lookup_insert_eq.
  - intros wk task flag Hw Hdaily Hshape _ _.
    pose proof (underscore_not_daily task Hshape) as Hne.
    pose proof (split_underscore task Hshape) as Hlen. apply Nat.ltb_lt in Hlen.
    assert (Hweek : default ∅ (progress user) !! week = Some wk).
    { unfold weekOf in Hw. by rewrite Hu in Hw. }
    assert (Hstore : storeTask task flag wk = <[task := VBool flag]> wk).
    { unfold storeTask. cbv zeta. rewrite lookup_insert_ne by done. by rewrite Hdaily. }
    unfold updateProgress. rewrite Hu, Hweek. simpl default.
    rewrite Hstore. unfold updateDaily. rewrite Hlen.
    rewrite lookup_insert_ne by done. rewrite Hdaily.
    eexists. split; [reflexivity|].
    rewrite (weekOf_writeProgress d c _ user week Hu). apply lookup_insert_eq.
Qed.

End FirstAndPoisoned.

Lemma updateProgress_first_of_week_witness :
  ∃ d',
    updateProgress enrolled 1 "monday_1700" "1" true = Done d'
    ∧ weekOf d' 1 "1"
        = Some (<["completed" := VNum 1]>
               (<["total" := VNum 1]>
               (<["daily" := VDaily {[ "monday" := {| completed := 1; total := 1 |} ]}]>
               {[ "monday_1700" := VBool true ]}))).
Proof.
  assert (Htask : "monday_1700" ≠ "__proto__") by discriminate.
  apply (updateProgress_first_of_week enrolled 1 _ "monday_1700" "1" true
           eq_refl eq_refl eq_refl Htask eq_refl eq_refl).
Defined.

Lemma updateProgress_daily_flag_throws_witness :
  ∃ d',
    updateProgress poisoned 1 "monday_1700" "1" true = TypeError d'
    ∧ weekOf d' 1 "1"
        = Some (<["monday_1700" := VBool true]>
               (<["completed" := VNum 0]> (<["total" := VNum 0]> {[ "daily" := VBool true ]}))).
Proof.
  destruct (updateProgress_daily_flag_throws poisoned 1 _ "1" eq_refl eq_refl) as [_ Hthrows].
  apply (Hthrows _ "monday_1700" true); (reflexivity || discriminate).
Defined.

(** ** Further properties: the progress endpoint *)

Section ProgressEndpoint.

Implicit Types (wk : gmap string value).

Lemma getProgress_cases d c week :
  (weekOf d c week = None ∧ getProgress d c week = (emptyProgress, d))
  ∨ (∃ user progress0 wk,
       findUser d c = Some user ∧ progress user = Some progress0
       ∧ progress0 !! week = Some wk ∧ weekOf d c week = Some wk
       ∧ truthy (wk !! "daily") = true ∧ getProgress d c week = (wk, d))
  ∨ (∃ user progress0 wk,
       findUser d c = Some user ∧ progress user = Some progress0
       ∧ progress0 !! week = Some wk ∧ weekOf d c week = Some wk
       ∧ truthy (wk !! "daily") = false
       ∧ getProgress d c week
           = (<["daily" := VDaily (foldl (backfillDay (<["daily" := VDaily ∅]> wk)) ∅ daysOfWeek)]> wk,
              writeProgress d c
                (<[week := <["daily" := VDaily (foldl (backfillDay (<["daily" := VDaily ∅]> wk)) ∅
                                                  daysOfWeek)]> wk]> progress0))).
Proof.
  unfold getProgress, weekOf.
  destruct (findUser d c) as [user|] eqn:Hu; [|by left].
  destruct (progress user) as [progress0|] eqn:Hp; simpl; [|left; by rewrite lookup_empty].
  destruct (progress0 !! week) as [wk|] eqn:Hw; [|by left].
  destruct (truthy (wk !! "daily")) eqn:Ht; right; [left|right];
    exists user, progress0, wk; repeat (split; [done|]).
  - done.
  - by rewrite insert_insert_eq.
Qed.

(** X8: for a week key that is not an inherited property name, the progress
    endpoint changes nothing but the [daily] key of the
    week it is asked for: every other key of that week object is sent and
    kept as stored, and the other weeks, the other users, the chat ids, the
    schedules, workouts and meals, the current week and the day schedules
    stay as they were; for a week without progress it sends the empty
    progress and writes nothing. *)
Theorem getProgress_frame d c week :
  inherited week = false →
  let sent := (getProgress d c week).1 in
  let d' := (getProgress d c week).2 in
  (∀ wk, weekOf d c week = Some wk →
     weekOf d' c week = Some sent ∧ ∀ key, key ≠ "daily" → sent !! key = wk !! key)
  ∧ (weekOf d c week = None → sent = emptyProgress ∧ d' = d)
  ∧ (∀ c', c' ≠ c → findUser d' c' = findUser d c')
  ∧ (∀ week', week' ≠ week → weekOf d' c week' = weekOf d c week')
  ∧ map chatId (users d') = map chatId (users d)
  ∧ schedules d' = schedules d
  ∧ workouts d' = workouts d
  ∧ meals d' = meals d
  ∧ (∀ now c', calculateCurrentWeek d' now c' = calculateCurrentWeek d now c')
  ∧ (∀ now c' day, getScheduleForDay d' now c' day = getScheduleForDay d now c' day).
Proof.
  intros _ sent d'. subst sent d'.
  destruct (getProgress_cases d c week)
    as [[Hnone ->] | [(user & progress0 & wk & Hu & Hp & Hl & Hw & Ht & ->)
                     | (user & progress0 & wk & Hu & Hp & Hl & Hw & Ht & ->)]];
    simpl.
  - split; [intros ? ?; congruence|]. repeat split; done.
  - split.
    { intros wk0 Hwk0. split; [congruence|]. intros key _. congruence. }
    split; [congruence|]. repeat split; done.
  - set (wk2 := <["daily" := _]> wk).
    assert (Hweek : ∀ now c',
              calculateCurrentWeek (writeProgress d c (<[week:=wk2]> progress0)) now c'
              = calculateCurrentWeek d now c').
    { intros now c'. apply calculateCurrentWeek_startDate, writeProgress_startDate. }
    split; [|split; [|split; [|split; [|split; [|split; [|split; [|split; [|split]]]]]]]];
      try done.
    + intros wk0 Hwk0. assert (wk0 = wk) as -> by congruence.
      rewrite (weekOf_writeProgress d c _ user week Hu), lookup_insert_eq.
      split; [done|]. intros key Hkey. subst wk2. by rewrite lookup_insert_ne.
    + congruence.
    + intros c' Hne. unfold findUser, writeProgress. simpl.
      by apply find_assignProgress_ne.
    + intros week' Hne. rewrite (weekOf_writeProgress d c _ user week' Hu).
      rewrite lookup_insert_ne by done. unfold weekOf. by rewrite Hu, Hp.
    + apply assignProgress_chatIds.
    + intros now c' day. by apply getScheduleForDay_same_rows.
Qed.

Lemma backfillDay_eq wk daily day :
  backfillDay wk daily day
    = if decide (0 < countKeys (ofDay day) wk)%nat
      then <[day := {| completed := countTrue (ofDay day) wk;
                       total := countKeys (ofDay day) wk |}]> daily
      else daily.
Proof.
  unfold backfillDay. fold (countKeys (ofDay day) wk).
  assert (Hcompleted :
    size (filter (λ kv : string * value, strictTrue kv.2 = true)
            (filter (λ kv : string * value, ofDay day kv.1 = true) wk))
    = countTrue (ofDay day) wk).
  { unfold countTrue. f_equal. rewrite map_filter_filter.
    apply map_filter_ext. intros k v _. simpl.
    rewrite andb_true_iff. tauto. }
  rewrite Hcompleted.
  destruct (Nat.ltb_spec 0 (countKeys (ofDay day) wk)); case_decide; (done || lia).
Qed.

Lemma foldl_backfillDay_lookup wk days daily day :
  foldl (backfillDay wk) daily days !! day
    = if decide (day ∈ days ∧ (0 < countKeys (ofDay day) wk)%nat)
      then Some {| completed := countTrue (ofDay day) wk;
                   total := countKeys (ofDay day) wk |}
      else daily !! day.
Proof.
  revert daily. induction days as [|first rest IH]; intros daily; cbn [foldl].
  - case_decide as Hin; [|done]. destruct Hin as [Hin _]. by apply elem_of_nil in Hin.
  - rewrite IH, backfillDay_eq.
    destruct (decide (day ∈ rest ∧ (0 < countKeys (ofDay day) wk)%nat)) as [[Hin Hpos]|Hno];
      destruct (decide (day ∈ first :: rest ∧ (0 < countKeys (ofDay day) wk)%nat))
        as [[Hin' Hpos']|Hno'].
    + done.
    + destruct Hno'. split; [by apply elem_of_cons; right | done].
    + apply elem_of_cons in Hin' as [->|Hin']; [|by destruct Hno].
      rewrite decide_True by done. apply lookup_insert_eq.
    + case_decide as Hfirst; [|done].
      apply lookup_insert_ne. intros <-. apply Hno'.
      split; [apply elem_of_cons; by left | done].
Qed.

(** X9: when the stored week object has no [daily] (or a falsy one), the
    progress endpoint sends and stores a [daily] object that holds, for each
    of the seven lowercase day names with at least one key [day_...], the
    exact counter of that day (number of such keys, number of them whose flag
    is true) and nothing else; so every counter it creates has
    [1 <= total] and [completed <= total]. *)
Theorem getProgress_backfill d c week wk :
  weekOf d c week = Some wk →
  truthy (wk !! "daily") = false →
  inherited week = false →
  ∃ daily,
    (getProgress d c week).1 !! "daily" = Some (VDaily daily)
    ∧ weekOf (getProgress d c week).2 c week = Some (getProgress d c week).1
    ∧ (∀ day,
         daily !! day
           = if decide (day ∈ daysOfWeek ∧ (0 < countKeys (ofDay day) wk)%nat)
             then Some {| completed := countTrue (ofDay day) wk;
                          total := countKeys (ofDay day) wk |}
             else None)
    ∧ (∀ day counter,
         daily !! day = Some counter →
         (1 ≤ total counter)%nat ∧ (completed counter ≤ total counter)%nat).
Proof.
  intros Hw Ht _.
  destruct (getProgress_cases d c week)
    as [[Hnone _] | [(user & progress0 & wk0 & Hu & Hp & Hl & Hw0 & Ht0 & Hget)
                    | (user & progress0 & wk0 & Hu & Hp & Hl & Hw0 & Ht0 & Hget)]];
    [congruence | congruence |].
  assert (wk0 = wk) as -> by congruence.
  rewrite Hget. simpl. eexists. split; [apply lookup_insert_eq|].
  split; [by rewrite (weekOf_writeProgress d c _ user week Hu), lookup_insert_eq|].
  assert (Hkeys : ∀ day, countKeys (ofDay day) (<["daily" := VDaily ∅]> wk)
                         = countKeys (ofDay day) wk).
  { intros day. apply countKeys_ext. intros k Hk. apply lookup_insert_ne.
    intros <-. by rewrite ofDay_daily in Hk. }
  assert (Htrue : ∀ day, countTrue (ofDay day) (<["daily" := VDaily ∅]> wk)
                         = countTrue (ofDay day) wk).
  { intros day. apply countTrue_ext. intros k Hk. apply lookup_insert_ne.
    intros <-. by rewrite ofDay_daily in Hk. }
  assert (Hlookup : ∀ day,
            foldl (backfillDay (<["daily" := VDaily ∅]> wk)) ∅ daysOfWeek !! day
            = if decide (day ∈ daysOfWeek ∧ (0 < countKeys (ofDay day) wk)%nat)
              then Some {| completed := countTrue (ofDay day) wk;
                           total := countKeys (ofDay day) wk |}
              else None).
  { intros day. rewrite foldl_backfillDay_lookup, Hkeys, Htrue, lookup_empty. done. }
  split; [exact Hlookup|].
  intros day counter. rewrite Hlookup. case_decide as Hday; [|done].
  intros [= <-]. simpl. split; [by destruct Hday | apply countTrue_le_countKeys].
Qed.

End ProgressEndpoint.

Lemma getProgress_frame_witness :
  ∃ sent,
    weekOf (getProgress legacy 1 "1").2 1 "1" = Some sent
    ∧ sent !! "monday_1700" = Some (VBool true)
    ∧ sent !! "total" = Some (VNum 2).
Proof.
  destruct (getProgress_frame legacy 1 "1" eq_refl) as (Hsent & _).
  destruct (Hsent _ eq_refl) as [Hstored Hkeys].
  eexists. split; [exact Hstored|].
  split; (rewrite Hkeys; [reflexivity | discriminate]).
Defined.

Lemma getProgress_backfill_witness :
  ∃ daily,
    (getProgress legacy 1 "1").1 !! "daily" = Some (VDaily daily)
    ∧ ∀ day counter,
        daily !! day = Some counter →
        (1 ≤ total counter)%nat ∧ (completed counter ≤ total counter)%nat.
Proof.
  destruct (getProgress_backfill legacy 1 "1" _ eq_refl eq_refl eq_refl)
    as (daily & Hsent & _ & _ & Hbounds).
  exists daily. split; [exact Hsent | exact Hbounds].
Defined.

(** ** Further properties: enrollment *)

Section ListSearch.

Context {A : Type}.
Implicit Types (p : A → bool) (l : list A).

Lemma find_app p l1 l2 :
  find p (l1 ++ l2) = match find p l1 with Some x => Some x | None => find p l2 end.
Proof.
  induction l1 as [|x l1 IH]; simpl; [done|]. by destruct (p x).
Qed.

Lemma find_filter_keep p (Q : A → Prop) `{!∀ x, Decision (Q x)} l :
  (∀ x, p x = true → Q x) → find p (filter Q l) = find p l.
Proof.
  intros Hpq. induction l as [|x l IH]; [done|].
  rewrite filter_cons. simpl. destruct (p x) eqn:Hp.
  - rewrite decide_True by auto. simpl. by rewrite Hp.
  - case_decide; simpl; [by rewrite Hp|done].
Qed.

Lemma find_filter_drop p (Q : A → Prop) `{!∀ x, Decision (Q x)} l :
  (∀ x, p x = true → ¬ Q x) → find p (filter Q l) = None.
Proof.
  intros Hpq. induction l as [|x l IH]; [done|].
  rewrite filter_cons. case_decide as HQ; [|done].
  simpl. destruct (p x) eqn:Hp; [|done]. by destruct (Hpq x Hp).
Qed.

Lemma find_all_false p l : (∀ x, In x l → p x = false) → find p l = None.
Proof.
  induction l as [|x l IH]; simpl; [done|]. intros Hall.
  rewrite (Hall x) by by left. apply IH. intros y Hy. apply Hall. by right.
Qed.

Lemma find_agree p q l : (∀ x, In x l → p x = q x) → find p l = find q l.
Proof.
  induction l as [|x l IH]; simpl; [done|]. intros Hall.
  rewrite (Hall x) by by left. rewrite IH; [done|]. intros y Hy. apply Hall. by right.
Qed.

Lemma filter_none (Q : A → Prop) `{!∀ x, Decision (Q x)} l :
  (∀ x, In x l → ¬ Q x) → filter Q l = [].
Proof.
  induction l as [|x l IH]; [done|]. intros Hall.
  rewrite filter_cons, decide_False by (apply Hall; by left).
  apply IH. intros y Hy. apply Hall. by right.
Qed.

Lemma filter_twice (Q : A → Prop) `{!∀ x, Decision (Q x)} l :
  filter Q (filter Q l) = filter Q l.
Proof.
  induction l as [|x l IH]; [done|].
  rewrite filter_cons. case_decide; [|done].
  by rewrite filter_cons, decide_True, IH.
Qed.

End ListSearch.

Section Enrollment.

Lemma workoutData_chatId c w : In w (workoutData c) → w_chatId w = c.
Proof.
  unfold workoutData. intros (plan & _ & Hin)%in_flat_map.
  by apply in_map_iff in Hin as (entry & <- & _).
Qed.

Lemma mealData_chatId c m : In m (mealData c) → m_chatId m = c.
Proof. unfold mealData. by intros (entry & <- & _)%in_map_iff. Qed.

(** The state [/regenerate] leaves: the rows of the other users, followed by
    the new rows of the user. *)
Lemma regenerate_state d now c :
  (regenerate d now c).1
  = {| users := filter (λ u, chatId u ≠ c) (users d) ++ [newUser now c];
       schedules := filter (λ s, s_chatId s ≠ c) (schedules d)
                    ++ [ {| s_chatId := c; tasks := scheduleData |} ];
       workouts := filter (λ w, w_chatId w ≠ c) (workouts d) ++ workoutData c;
       meals := filter (λ m, m_chatId m ≠ c) (meals d) ++ mealData c |}.
Proof.
  unfold regenerate. cbv zeta. cbn [fst].
  unfold generateSchedule, removeUserData. cbn [schedules].
  rewrite find_filter_drop; [done|].
  intros s Hs%Z.eqb_eq. by intros ?.
Qed.

Lemma findUser_regenerate d now c :
  findUser (regenerate d now c).1 c = Some (newUser now c).
Proof.
  rewrite regenerate_state. unfold findUser. cbn [users].
  rewrite find_app, find_filter_drop.
  - cbn [find newUser chatId]. by rewrite Z.eqb_refl.
  - intros u Hu%Z.eqb_eq. by intros ?.
Qed.

Lemma getWorkout_regenerate d now c week day :
  getWorkout (regenerate d now c).1 c week day
  = find (λ w, (w_week w =? week)%Z && String.eqb (w_day w) day) (workoutData c).
Proof.
  rewrite regenerate_state. unfold getWorkout. cbn [workouts].
  rewrite find_app, find_filter_drop.
  - apply find_agree. intros w Hw. by rewrite (workoutData_chatId c w Hw), Z.eqb_refl.
  - intros w Hw. apply andb_true_iff in Hw as [Hw _].
    apply andb_true_iff in Hw as [Hw%Z.eqb_eq _]. by intros ?.
Qed.

Lemma getMeal_regenerate d now c day :
  getMeal (regenerate d now c).1 c day
  = find (λ m, String.eqb (m_day m) day) (mealData c).
Proof.
  rewrite regenerate_state. unfold getMeal. cbn [meals].
  rewrite find_app, find_filter_drop.
  - apply find_agree. intros m Hm. by rewrite (mealData_chatId c m Hm), Z.eqb_refl.
  - intros m Hm. apply andb_true_iff in Hm as [Hm%Z.eqb_eq _]. by intros ?.
Qed.

Lemma getSchedule_regenerate d now c :
  getSchedule (regenerate d now c).1 c = Some scheduleData.
Proof.
  rewrite regenerate_state. unfold getSchedule. cbn [schedules].
  rewrite find_app, find_filter_drop.
  - cbn [find s_chatId]. by rewrite Z.eqb_refl.
  - intros s Hs%Z.eqb_eq. by intros ?.
Qed.

Lemma regenerate_other d now c c' :
  c' ≠ c →
  findUser (regenerate d now c).1 c' = findUser d c'
  ∧ getSchedule (regenerate d now c).1 c' = getSchedule d c'
  ∧ (∀ week day,
       getWorkout (regenerate d now c).1 c' week day = getWorkout d c' week day)
  ∧ (∀ day, getMeal (regenerate d now c).1 c' day = getMeal d c' day).
Proof.
  intros Hne. rewrite regenerate_state.
  unfold findUser, getSchedule, getWorkout, getMeal. cbn [users schedules workouts meals].
  split; [|split; [|split]].
  - rewrite find_app, find_filter_keep.
    + destruct (find _ (users d)); [done|]. cbn [find newUser chatId].
      destruct (Z.eqb_spec c c'); [congruence | done].
    + intros u Hu'%Z.eqb_eq. congruence.
  - rewrite find_app, find_filter_keep.
    + destruct (find _ (schedules d)); [done|]. cbn [find s_chatId].
      destruct (Z.eqb_spec c c'); [congruence | done].
    + intros s Hs%Z.eqb_eq. congruence.
  - intros week day. rewrite find_app, find_filter_keep.
    + destruct (find _ (workouts d)); [done|].
      apply find_all_false. intros w Hw. rewrite (workoutData_chatId c w Hw).
      destruct (Z.eqb_spec c c'); [congruence | done].
    + intros w Hw. apply andb_true_iff in Hw as [Hw _].
      apply andb_true_iff in Hw as [Hw%Z.eqb_eq _]. congruence.
  - intros day. rewrite find_app, find_filter_keep.
    + destruct (find _ (meals d)); [done|].
      apply find_all_false. intros m Hm. rewrite (mealData_chatId c m Hm).
      destruct (Z.eqb_spec c c'); [congruence | done].
    + intros m Hm. apply andb_true_iff in Hm as [Hm%Z.eqb_eq _]. congruence.
Qed.

(** X10: after [/regenerate] the user has the one fresh row (start date the
    clock reading, empty progress), is in week 1 at that reading, has no
    week of progress left and has the schedule [scheduleData]; the user row,
    schedule, workouts and meals found for any other chat id are those found
    before. *)
Theorem regenerate_resets_user d now c :
  let d' := (regenerate d now c).1 in
  findUser d' c = Some (newUser now c)
  ∧ calculateCurrentWeek d' now c = 1%Z
  ∧ (∀ week, weekOf d' c week = None)
  ∧ getSchedule d' c = Some scheduleData
  ∧ ∀ c', c' ≠ c →
      findUser d' c' = findUser d c'
      ∧ getSchedule d' c' = getSchedule d c'
      ∧ (∀ week day, getWorkout d' c' week day = getWorkout d c' week day)
      ∧ (∀ day, getMeal d' c' day = getMeal d c' day).
Proof.
  intros d'. subst d'.
  pose proof (findUser_regenerate d now c) as Hu.
  split; [done|]. split.
  { unfold calculateCurrentWeek. rewrite Hu. cbn [newUser startDate].
    rewrite weekSince_eq, Z.sub_diag. reflexivity. }
  split.
  { intros week. unfold weekOf. rewrite Hu. simpl. apply lookup_empty. }
  split; [apply getSchedule_regenerate|].
  intros c' Hne. by apply regenerate_other.
Qed.

Lemma workoutData_in_range c :
  forallb (λ w, (1 <=? w_week w)%Z && (w_week w <=? 8)%Z
                && existsb (String.eqb (w_day w)) catalogDays)
          (workoutData c) = true.
Proof. vm_compute. reflexivity. Qed.

Lemma mealData_in_range c :
  forallb (λ m, existsb (String.eqb (m_day m)) catalogDays) (mealData c) = true.
Proof. vm_compute. reflexivity. Qed.

Lemma existsb_catalogDays day :
  existsb (String.eqb day) catalogDays = true ↔ day ∈ catalogDays.
Proof.
  rewrite existsb_exists. split.
  - intros (x & Hin & Heq%String.eqb_eq). subst x. by apply list_elem_of_In.
  - intros Hin. exists day. split; [by apply list_elem_of_In | apply String.eqb_refl].
Qed.

Lemma getWorkout_regenerate_found d now c week day :
  (1 ≤ week ≤ 8)%Z → day ∈ catalogDays →
  ∃ w,
    getWorkout (regenerate d now c).1 c week day = Some w
    ∧ w_chatId w = c ∧ w_week w = week ∧ w_day w = day
    ∧ w_description w = String.append "Workout for " day
    ∧ negb (String.eqb (w_details w) "")
        = Js.includes (w_title w) "Bodyweight Circuit" || Js.includes (w_title w) "Run".
Proof.
  intros Hweek Hday. rewrite getWorkout_regenerate.
  assert (week = 1 ∨ week = 2 ∨ week = 3 ∨ week = 4 ∨ week = 5 ∨ week = 6
          ∨ week = 7 ∨ week = 8)%Z as [->|[->|[->|[->|[->|[->|[->| ->]]]]]]] by lia;
    repeat (apply elem_of_cons in Hday as [->|Hday]);
    try (by apply elem_of_nil in Hday);
    (eexists; split; [vm_compute; reflexivity|]; repeat split; reflexivity).
Qed.

Lemma getMeal_regenerate_found d now c day :
  day ∈ catalogDays →
  ∃ m, getMeal (regenerate d now c).1 c day = Some m ∧ m_chatId m = c ∧ m_day m = day.
Proof.
  intros Hday. rewrite getMeal_regenerate.
  repeat (apply elem_of_cons in Hday as [->|Hday]);
    try (by apply elem_of_nil in Hday);
    (eexists; split; [vm_compute; reflexivity|]; split; reflexivity).
Qed.

(** X11: after [/regenerate] a workout is found for the user exactly for the
    weeks 1 to 8 and the seven capitalised day names, and a meal exactly for
    those day names.  The workout found is the row of that week and day, its
    description is "Workout for " followed by the day, and it has details
    exactly when its title contains "Bodyweight Circuit" or "Run"; the meal
    found is the row of that day. *)
Theorem regenerate_catalogue d now c :
  let d' := (regenerate d now c).1 in
  (∀ week day,
     (1 ≤ week ≤ 8)%Z → day ∈ catalogDays →
     ∃ w,
       getWorkout d' c week day = Some w
       ∧ w_chatId w = c ∧ w_week w = week ∧ w_day w = day
       ∧ w_description w = String.append "Workout for " day
       ∧ negb (String.eqb (w_details w) "")
           = Js.includes (w_title w) "Bodyweight Circuit" || Js.includes (w_title w) "Run")
  ∧ (∀ week day w,
       getWorkout d' c week day = Some w → (1 ≤ week ≤ 8)%Z ∧ day ∈ catalogDays)
  ∧ (∀ day,
       day ∈ catalogDays →
       ∃ m, getMeal d' c day = Some m ∧ m_chatId m = c ∧ m_day m = day)
  ∧ (∀ day m, getMeal d' c day = Some m → day ∈ catalogDays).
Proof.
  intros d'. subst d'. split; [|split; [|split]].
  - apply getWorkout_regenerate_found.
  - intros week day w. rewrite getWorkout_regenerate.
    intros [Hin Hw]%find_some.
    apply andb_true_iff in Hw as [<-%Z.eqb_eq <-%String.eqb_eq].
    pose proof (workoutData_in_range c) as Hall.
    rewrite forallb_forall in Hall. specialize (Hall w Hin).
    apply andb_true_iff in Hall as [Hall Hday].
    apply andb_true_iff in Hall as [?%Z.leb_le ?%Z.leb_le].
    split; [lia|]. by apply existsb_catalogDays.
  - apply getMeal_regenerate_found.
  - intros day m. rewrite getMeal_regenerate.
    intros [Hin <-%String.eqb_eq]%find_some.
    pose proof (mealData_in_range c) as Hall.
    rewrite forallb_forall in Hall. by apply existsb_catalogDays, Hall.
Qed.

End Enrollment.

Lemma regenerate_catalogue_witness :
  ∃ w,
    getWorkout (regenerate enrolled 0 1).1 1 3 "Wednesday" = Some w
    ∧ w_title w = "45 min Run (intervals: 2 min fast, 2 min slow)".
Proof.
  destruct (regenerate_catalogue enrolled 0 1) as (Hworkouts & _).
  destruct (Hworkouts 3%Z "Wednesday") as (w & Hw & _);
    [lia | apply list_elem_of_In; simpl; tauto |].
  exists w. split; [exact Hw|].
  assert (Heval : getWorkout (regenerate enrolled 0 1).1 1 3 "Wednesday"
                  = Some {| w_chatId := 1; w_week := 3; w_day := "Wednesday";
                            w_title := "45 min Run (intervals: 2 min fast, 2 min slow)";
                            w_description := "Workout for Wednesday";
                            w_details := runDetails |}) by (vm_compute; reflexivity).
  rewrite Heval in Hw. by injection Hw as <-.
Defined.

Section Commands.

Lemma filter_all {A} (Q : A → Prop) `{!∀ x, Decision (Q x)} (l : list A) :
  (∀ x, In x l → Q x) → filter Q l = l.
Proof.
  induction l as [|x l IH]; [done|]. intros Hall.
  rewrite filter_cons, decide_True by (apply Hall; by left).
  rewrite IH; [done|]. intros y Hy. apply Hall. by right.
Qed.

Lemma filter_after_regenerate {A} (key : A → Z) (c : Z) (old new : list A) :
  (∀ x, In x new → key x = c) →
  filter (λ x, key x ≠ c) (filter (λ x, key x ≠ c) old ++ new)%list
    = filter (λ x, key x ≠ c) old.
Proof.
  intros Hnew. rewrite filter_app, filter_twice.
  rewrite (filter_none _ new); [apply app_nil_r|].
  intros x Hx Hne. by apply Hne, Hnew.
Qed.

(** X12: running [/regenerate] again gives the state, and the reply, a single
    [/regenerate] at the later clock reading gives: the rows of the first run
    are all removed and rebuilt. *)
Theorem regenerate_again d now now' c :
  (regenerate (regenerate d now c).1 now' c).1 = (regenerate d now' c).1
  ∧ (regenerate (regenerate d now c).1 now' c).2 = (regenerate d now' c).2.
Proof.
  split; [|done].
  rewrite (regenerate_state (regenerate d now c).1), (regenerate_state d now' c).
  rewrite (regenerate_state d now c). cbn [users schedules workouts meals].
  f_equal; f_equal.
  - apply (filter_after_regenerate chatId). by intros u [<-|[]].
  - apply (filter_after_regenerate s_chatId). by intros s [<-|[]].
  - apply (filter_after_regenerate w_chatId), workoutData_chatId.
  - apply (filter_after_regenerate m_chatId), mealData_chatId.
Qed.

Lemma generateSchedule_users d c : users (generateSchedule d c) = users d.
Proof. unfold generateSchedule. by destruct (find _ _). Qed.

Lemma generateSchedule_has_schedule d c : is_Some (getSchedule (generateSchedule d c) c).
Proof.
  unfold generateSchedule, getSchedule.
  destruct (find _ (schedules d)) as [s|] eqn:Hs.
  - rewrite Hs. by eexists.
  - cbn [generateWorkoutData schedules]. rewrite find_app, Hs.
    cbn [find s_chatId]. rewrite Z.eqb_refl. by eexists.
Qed.

Lemma generateSchedule_keeps_schedule d c c' :
  is_Some (getSchedule d c') → is_Some (getSchedule (generateSchedule d c) c').
Proof.
  unfold generateSchedule, getSchedule.
  destruct (find (λ s, (s_chatId s =? c)%Z) (schedules d)) as [s|] eqn:Hs; [done|].
  cbn [generateWorkoutData schedules]. rewrite find_app.
  destruct (find (λ s, (s_chatId s =? c')%Z) (schedules d)); [done|].
  by intros [? [=]].
Qed.

Lemma generate_new d now c :
  findUser d c = None →
  (generate d now c).1
  = generateMealData
      (generateSchedule
         {| users := users d ++ [newUser now c];
            schedules := schedules d;
            workouts := workouts d;
            meals := meals d |} c) c.
Proof. intros Hu. unfold generate. by rewrite Hu. Qed.

Lemma findUser_generate_new d now c :
  findUser d c = None → findUser (generate d now c).1 c = Some (newUser now c).
Proof.
  intros Hu. rewrite (generate_new d now c Hu). unfold findUser in *.
  cbn [generateMealData users]. rewrite generateSchedule_users. cbn [users].
  rewrite find_app, Hu. cbn [find newUser chatId]. by rewrite Z.eqb_refl.
Qed.

(** X13: [/generate] always leaves a row for the user; when there was none
    the row is the fresh one and the user is in week 1 at that clock
    reading; when there was one nothing is changed.  In particular a second
    [/generate], at any later time, changes nothing and gets the
    "already have a fitness plan" reply. *)
Theorem generate_once d now now' c :
  is_Some (findUser (generate d now c).1 c)
  ∧ (findUser d c = None →
     findUser (generate d now c).1 c = Some (newUser now c)
     ∧ calculateCurrentWeek (generate d now c).1 now c = 1%Z)
  ∧ (is_Some (findUser d c) → (generate d now c).1 = d)
  ∧ generate (generate d now c).1 now' c
    = ((generate d now c).1,
       "You already have a fitness plan. Use /regenerate if you want to start over.").
Proof.
  assert (Hsome : is_Some (findUser (generate d now c).1 c)).
  { destruct (findUser d c) as [user|] eqn:Hu.
    - unfold generate. rewrite Hu. cbn [fst]. rewrite Hu. by eexists.
    - rewrite (findUser_generate_new d now c Hu). by eexists. }
  split; [done|]. split; [|split].
  - intros Hu. pose proof (findUser_generate_new d now c Hu) as Hnew.
    split; [done|]. unfold calculateCurrentWeek. rewrite Hnew. cbn [newUser startDate].
    rewrite weekSince_eq, Z.sub_diag. reflexivity.
  - intros [user Hu]. unfold generate. by rewrite Hu.
  - destruct Hsome as [user Hu]. unfold generate at 1. by rewrite Hu.
Qed.

(** X14: for a chat id none of whose rows is in the store, [/generate] and
    [/regenerate] leave the same state. *)
Theorem generate_like_regenerate d now c :
  (∀ u, In u (users d) → chatId u ≠ c) →
  (∀ s, In s (schedules d) → s_chatId s ≠ c) →
  (∀ w, In w (workouts d) → w_chatId w ≠ c) →
  (∀ m, In m (meals d) → m_chatId m ≠ c) →
  (generate d now c).1 = (regenerate d now c).1.
Proof.
  intros Hu Hs Hw Hm.
  assert (Hnone : findUser d c = None).
  { apply find_all_false. intros u Hin. apply Z.eqb_neq. by apply Hu. }
  rewrite (generate_new d now c Hnone), regenerate_state.
  rewrite !filter_all by done.
  unfold generateSchedule. cbn [schedules].
  rewrite find_all_false; [done|].
  intros s Hin. apply Z.eqb_neq. by apply Hs.
Qed.

Lemma writeProgress_is_Some d c p c' :
  is_Some (findUser (writeProgress d c p) c') ↔ is_Some (findUser d c').
Proof.
  pose proof (writeProgress_startDate d c p c') as Heq.
  destruct (findUser (writeProgress d c p) c'), (findUser d c'); simpl in Heq;
    split; intros [? ?]; try done; by eexists.
Qed.

(** X15: "every user row comes with a schedule row" holds in the initial
    state and is kept by [/generate], [/regenerate], [updateProgress] and the
    progress endpoint; in such a state [getScheduleForDay] returns a
    schedule, not null, for every user. *)
Theorem everyUserHasSchedule_kept d now c task week flag :
  everyUserHasSchedule emptyDb
  ∧ (everyUserHasSchedule d →
     everyUserHasSchedule (generate d now c).1
     ∧ everyUserHasSchedule (regenerate d now c).1
     ∧ everyUserHasSchedule (stateOf (updateProgress d c task week flag))
     ∧ everyUserHasSchedule (getProgress d c week).2
     ∧ ∀ c' day, is_Some (findUser d c') → is_Some (getScheduleForDay d now c' day)).
Proof.
  split; [by intros c' [? [=]]|].
  intros Hinv. split; [|split; [|split; [|split]]].
  - destruct (findUser d c) as [user|] eqn:Hu.
    { unfold generate. by rewrite Hu. }
    rewrite (generate_new d now c Hu). intros c' Hc'.
    unfold getSchedule. cbn [generateMealData schedules].
    fold (getSchedule (generateSchedule
            {| users := users d ++ [newUser now c]; schedules := schedules d;
               workouts := workouts d; meals := meals d |} c) c').
    destruct (decide (c' = c)) as [->|Hne]; [apply generateSchedule_has_schedule|].
    apply generateSchedule_keeps_schedule. apply (Hinv c').
    unfold findUser in *. cbn [generateMealData users] in Hc'.
    rewrite generateSchedule_users in Hc'. cbn [users] in Hc'.
    rewrite find_app in Hc'.
    destruct (find (λ u, (chatId u =? c')%Z) (users d)) eqn:Hfound; [by eexists|].
    cbn [find newUser chatId] in Hc'.
    destruct (Z.eqb_spec c c') as [->|?]; [by destruct Hne | by destruct Hc' as [? [=]]].
  - intros c' Hc'.
    destruct (decide (c' = c)) as [->|Hne];
      [rewrite getSchedule_regenerate; by eexists|].
    destruct (regenerate_other d now c c' Hne) as (Hu & Hs & _).
    rewrite Hs. apply Hinv. by rewrite <- Hu.
  - intros c' Hc'. destruct (findUser d c) as [user|] eqn:Hu.
    + destruct (updateProgress_state d c user task week flag Hu) as [wk Hstate].
      rewrite Hstate in *. apply writeProgress_is_Some in Hc'.
      by apply Hinv.
    + unfold updateProgress in *. rewrite Hu in *. by apply Hinv.
  - intros c' Hc'.
    destruct (getProgress_cases d c week)
      as [[_ Hget] | [(user & progress0 & wk & _ & _ & _ & _ & _ & Hget)
                     | (user & progress0 & wk & _ & _ & _ & _ & _ & Hget)]];
      rewrite Hget in *; cbn [snd] in *; try by apply Hinv.
    apply writeProgress_is_Some in Hc'. by apply Hinv.
  - intros c' day Hc'. destruct (Hinv c' Hc') as [schedule Hs].
    unfold getScheduleForDay. rewrite Hs. by eexists.
Qed.

End Commands.

Lemma generate_once_witness :
  findUser (generate emptyDb 7 1).1 1 = Some (newUser 7 1)
  ∧ calculateCurrentWeek (generate emptyDb 7 1).1 7 1 = 1%Z
  ∧ (generate enrolled 7 1).1 = enrolled.
Proof.
  destruct (generate_once emptyDb 7 7 1) as (_ & Hnew & _).
  destruct (generate_once enrolled 7 7 1) as (_ & _ & Hold & _).
  destruct (Hnew eq_refl) as [Huser Hweek].
  split; [exact Huser|]. split; [exact Hweek|].
  apply Hold. by eexists.
Defined.

Lemma generate_like_regenerate_witness :
  (generate emptyDb 7 1).1 = (regenerate emptyDb 7 1).1.
Proof. apply generate_like_regenerate; intros ? []. Defined.

Lemma everyUserHasSchedule_kept_witness :
  everyUserHasSchedule (generate emptyDb 7 1).1
  ∧ is_Some (getScheduleForDay (generate emptyDb 7 1).1 9 1 "Monday").
Proof.
  destruct (everyUserHasSchedule_kept emptyDb 7 1 "monday_1700" "1" true) as [Hempty Hkept].
  destruct (Hkept Hempty) as (Hgenerate & _).
  split; [exact Hgenerate|].
  destruct (everyUserHasSchedule_kept (generate emptyDb 7 1).1 9 1 "monday_1700" "1" true)
    as [_ Hkept'].
  destruct (Hkept' Hgenerate) as (_ & _ & _ & _ & Hschedule).
  apply Hschedule. by eexists.
Defined.

(** ** Further properties: notifications *)

Section Notifications.

(** X16: the text of a reminder agrees with the day schedule the app shows
    for the same user, day and clock reading.  For a regular slot it is the
    title and description of the shown entry; for "17:00" with a workout row
    it is built from the title and description of the shown entry (followed
    by the details when there are any); for "16:00" and "22:00" with a meal
    row it carries the [mealContent] of the shown entry; without the row the
    shown entry is the template entry and the text is the fixed fallback,
    sent without Markdown. *)
Theorem notificationMessage_matches_schedule d now c day schedule time task :
  getSchedule d c = Some schedule →
  schedule !! time = Some task →
  ∃ daySchedule shown,
    getScheduleForDay d now c day = Some daySchedule
    ∧ daySchedule !! time = Some shown
    ∧ (time ≠ "17:00" → time ≠ "16:00" → time ≠ "22:00" →
       notificationMessage d now c day time task
       = (String.concat "" ["*"; title shown; "*"; newline; description shown], true))
    ∧ (time = "17:00" →
       match getWorkout d c (calculateCurrentWeek d now c) day with
       | Some workout =>
           notificationMessage d now c day time task
           = (let text :=
                String.concat ""
                  ["Time to workout!"; newline; newline; "*"; title shown; "*"; newline;
                   description shown] in
              if String.eqb (w_details workout) "" then text
              else String.concat ""
                     [text; newline; newline; "*Details:*"; newline; w_details workout],
              true)
       | None =>
           shown = task
           ∧ notificationMessage d now c day time task
             = ("It's workout time! Check the mini-app for details.", false)
       end)
    ∧ (time = "16:00" ∨ time = "22:00" →
       let mealName := if String.eqb time "16:00" then "snack" else "main meal" in
       match getMeal d c day with
       | Some meal =>
           ∃ content,
             mealContent shown = Some content
             ∧ notificationMessage d now c day time task
               = (String.concat ""
                    ["Time for your "; mealName; "!"; newline; newline; "*"; content; "*"],
                  true)
       | None =>
           shown = task
           ∧ notificationMessage d now c day time task
             = (String.concat ""
                  ["It's time for your "; mealName; "! Check the mini-app for details."],
                false)
       end).
Proof.
  intros Hs Ht. unfold getScheduleForDay. rewrite Hs.
  eexists _, (resolveSlot d now c day time task).
  split; [reflexivity|]. split; [by rewrite map_lookup_imap, Ht|].
  split; [|split].
  - intros H17 H16 H22. rewrite resolveSlot_regular by done.
    unfold notificationMessage.
    destruct (String.eqb_spec time "17:00"); [done|].
    destruct (String.eqb_spec time "16:00"); [done|].
    destruct (String.eqb_spec time "22:00"); done.
  - intros ->. rewrite resolveSlot_workout. unfold notificationMessage.
    cbn [String.eqb Ascii.eqb Bool.eqb]. cbv zeta.
    by destruct (getWorkout d c (calculateCurrentWeek d now c) day).
  - intros [-> | ->].
    + rewrite resolveSlot_snack. unfold notificationMessage.
      cbn [String.eqb Ascii.eqb Bool.eqb orb]. cbv zeta.
      destruct (getMeal d c day); [|done]. by eexists.
    + rewrite resolveSlot_mainMeal. unfold notificationMessage.
      cbn [String.eqb Ascii.eqb Bool.eqb orb]. cbv zeta.
      destruct (getMeal d c day); [|done]. by eexists.
Qed.

(** X17: for a user set up by [/regenerate], whatever the clock reads -
    before the start date, during the eight weeks or after them - the
    "17:00" reminder of a capitalised day name is never the fallback: it
    names the workout row of the current week (1 to 8) and that day, and the
    "16:00" and "22:00" reminders carry the snack and the main meal of the
    day. *)
Theorem regenerated_reminders_have_content d start c now day task :
  day ∈ catalogDays →
  let d' := (regenerate d start c).1 in
  (∃ w,
     getWorkout d' c (calculateCurrentWeek d' now c) day = Some w
     ∧ w_day w = day
     ∧ (1 ≤ w_week w ≤ 8)%Z
     ∧ notificationMessage d' now c day "17:00" task
       = (let text :=
            String.concat ""
              ["Time to workout!"; newline; newline; "*"; w_title w; "*"; newline;
               w_description w] in
          if String.eqb (w_details w) "" then text
          else String.concat ""
                 [text; newline; newline; "*Details:*"; newline; w_details w],
          true))
  ∧ (∃ m,
       getMeal d' c day = Some m
       ∧ m_day m = day
       ∧ notificationMessage d' now c day "16:00" task
         = (String.concat ""
              ["Time for your "; "snack"; "!"; newline; newline; "*"; snack m; "*"], true)
       ∧ notificationMessage d' now c day "22:00" task
         = (String.concat ""
              ["Time for your "; "main meal"; "!"; newline; newline; "*"; mainMeal m; "*"],
            true)).
Proof.
  intros Hday d'. subst d'. split.
  - assert (Hweek : (1 ≤ calculateCurrentWeek (regenerate d start c).1 now c ≤ 8)%Z).
    { unfold calculateCurrentWeek. rewrite findUser_regenerate. cbn [newUser startDate].
      apply weekSince_range. }
    destruct (getWorkout_regenerate_found d start c _ day Hweek Hday)
      as (w & Hw & _ & Hwk & Hd & _).
    exists w. split; [done|]. split; [done|]. split; [by rewrite Hwk|].
    unfold notificationMessage. cbn [String.eqb Ascii.eqb Bool.eqb]. cbv zeta.
    by rewrite Hw.
  - destruct (getMeal_regenerate_found d start c day Hday) as (m & Hm & _ & Hd).
    exists m. split; [done|]. split; [done|].
    unfold notificationMessage. cbn [String.eqb Ascii.eqb Bool.eqb orb]. cbv zeta.
    by rewrite Hm.
Qed.


Lemma includes_char_cons sep a rest :
  Js.includes (String a rest) (String sep "")
    = Ascii.eqb a sep || Js.includes rest (String sep "").
Proof.
  rewrite includes_unfold. f_equal.
  cbn [String.prefix]. destruct (ascii_dec sep a) as [<-|Hne].
  - by rewrite prefix_empty, Ascii.eqb_refl.
  - destruct (Ascii.eqb_spec a sep); congruence.
Qed.

Lemma split_plain_part sep s :
  Js.includes s (String sep "") = false → Js.split sep s = [s].
Proof.
  induction s as [|a rest IH]; [done|].
  rewrite includes_char_cons. intros [Ha Hrest]%orb_false_iff.
  cbn [Js.split]. by rewrite Ha, (IH Hrest).
Qed.

Lemma split_first_part sep h rest :
  Js.includes h (String sep "") = false →
  Js.split sep (String.append h (String sep rest)) = h :: Js.split sep rest.
Proof.
  induction h as [|a h IH].
  - intros _. change (String.append "" (String sep rest)) with (String sep rest).
    cbn [Js.split]. by rewrite Ascii.eqb_refl.
  - rewrite includes_char_cons. intros [Ha Hh]%orb_false_iff.
    change (String.append (String a h) (String sep rest))
      with (String a (String.append h (String sep rest))).
    cbn [Js.split]. by rewrite Ha, (IH Hh).
Qed.

(** X19: for a schedule key of the form [HH:MM] (no colon inside [HH] or
    [MM]) the cron expression is [MM HH * * *]: minute first, then hour,
    every day. *)
Theorem cronExpression_hour_minute hour minute :
  Js.includes hour ":" = false →
  Js.includes minute ":" = false →
  cronExpression (String.append hour (String ":" minute))
    = String.concat "" [minute; " "; hour; " * * *"].
Proof.
  intros Hh Hm. unfold cronExpression.
  by rewrite (split_first_part ":" hour minute Hh), (split_plain_part ":" minute Hm).
Qed.

End Notifications.

Lemma notificationMessage_matches_schedule_witness :
  ∃ daySchedule shown,
    getScheduleForDay withSchedule 0 1 "Tuesday" = Some daySchedule
    ∧ daySchedule !! "12:00" = Some shown
    ∧ notificationMessage withSchedule 0 1 "Tuesday" "12:00"
        {| title := "500ml water"; description := "Stay hydrated"; mealContent := None |}
      = (String.concat "" ["*"; title shown; "*"; newline; description shown], true).
Proof.
  destruct (notificationMessage_matches_schedule withSchedule 0 1 "Tuesday" _ "12:00"
              {| title := "500ml water"; description := "Stay hydrated"; mealContent := None |}
              eq_refl eq_refl)
    as (daySchedule & shown & Hday & Hshown & Hregular & _).
  exists daySchedule, shown. split; [exact Hday|]. split; [exact Hshown|].
  apply Hregular; discriminate.
Defined.

Lemma regenerated_reminders_have_content_witness :
  ∃ w,
    getWorkout (regenerate emptyDb 0 1).1 1
      (calculateCurrentWeek (regenerate emptyDb 0 1).1 (100 * 86400000) 1) "Saturday" = Some w
    ∧ w_day w = "Saturday"
    ∧ (1 ≤ w_week w ≤ 8)%Z.
Proof.
  destruct (regenerated_reminders_have_content emptyDb 0 1 (100 * 86400000) "Saturday"
              {| title := ""; description := ""; mealContent := None |})
    as [(w & Hw & Hday & Hweek & _) _].
  - apply list_elem_of_In. simpl. tauto.
  - exists w. split; [exact Hw|]. split; [exact Hday | exact Hweek].
Defined.

Lemma cronExpression_hour_minute_witness :
  cronExpression "17:00" = "00 17 * * *".
Proof.
  apply (cronExpression_hour_minute "17" "00"); reflexivity.
Defined.

Lemma updateProgress_frame_witness :
  findUser (stateOf (updateProgress twoUsers 1 "monday_0900" "1" true)) 2
    = findUser twoUsers 2
  ∧ weekOf (stateOf (updateProgress twoUsers 1 "monday_0900" "2" true)) 1 "1"
    = weekOf twoUsers 1 "1".
Proof.
  split.
  - destruct (updateProgress_frame twoUsers 1 "monday_0900" "1" true eq_refl)
      as (Hother & _).
    apply Hother. discriminate.
  - destruct (updateProgress_frame twoUsers 1 "monday_0900" "2" true eq_refl)
      as (_ & Hweeks & _).
    apply Hweeks. discriminate.
Defined.

Lemma regenerate_resets_user_witness :
  findUser (regenerate twoUsers 9 1).1 2 = findUser twoUsers 2
  ∧ weekOf (regenerate twoUsers 9 1).1 1 "1" = None.
Proof.
  destruct (regenerate_resets_user twoUsers 9 1) as (_ & _ & Hweeks & _ & Hother).
  split; [|apply Hweeks].
  destruct (Hother 2%Z) as [Huser _]; [discriminate | exact Huser].
Defined.

